(** * News sentiment analysis backend: comparative analysis and narration

    A shallow embedding of [backend/news/utils.py] and of the parts of
    [backend/news/api.py] that call it, with the properties of the
    comparative analyzer, the narrative synthesizer, the summarization
    adapter and the enrichment orchestrator.

    Conventions of the embedding.
    - A Python [str] is a [string] with one [ascii] for each character, a
      code point below 256; the character tables ([py_isspace],
      [py_lower_char], [py_title_char], [is_cased]) are Python's on these
      code points, but for the title case of the micro sign (181) and of y
      with diaeresis (255), which lies above 255: [py_title_char] leaves
      these two as they are.
    - A Python [int] is a [Z]; [//] by a positive number is [Z.div].
    - A JSON value decoded by the web layer is a [pyval] (no floats); a
      [dict] is an association list in insertion order, [d.get(k, v)] finds
      the first binding of [k].
    - A raised exception is [Raise e] in the [result] monad; the
      [try/except Exception] blocks are written out where the source has
      them.
    - The external capabilities (classification and summarization
      pipelines, translator, speech synthesis, the file system, the
      interpreter's [hash] and [repr]) are variables of the sections that
      use them. *)

From stdpp Require Import gmap strings list pretty relations sorting.
From Stdlib Require Import ZArith Ascii.

Open Scope Z_scope.

(** ** Python strings *)

Module PyStr.

(** A character is a code point below 256, one [ascii] each. The three
    tables below are Python's on these code points. *)
Definition in_range (lo hi n : nat) : bool := (lo <=? n)%nat && (n <=? hi)%nat.

(** [str.isspace] on one character, which is also what [split] and [strip]
    take for white space: TAB, LF, VT, FF, CR, FS, GS, RS, US, the space,
    NEL (133) and the no-break space (160). *)
Definition py_isspace (c : ascii) : bool :=
  let n := nat_of_ascii c in
  in_range 9 13 n || in_range 28 32 n || Nat.eqb n 133 || Nat.eqb n 160.

(** The letters with a lower-case form: A-Z and the accented capitals
    192-222 without the multiplication sign (215). *)
Definition is_upper (c : ascii) : bool :=
  let n := nat_of_ascii c in
  in_range 65 90 n || in_range 192 214 n || in_range 216 222 n.

(** The letters whose upper-case form is 32 below: a-z and the accented
    small letters 224-254 without the division sign (247). *)
Definition is_lower (c : ascii) : bool :=
  let n := nat_of_ascii c in
  in_range 97 122 n || in_range 224 246 n || in_range 248 254 n.

(** [c.lower()] *)
Definition py_lower_char (c : ascii) : ascii :=
  if is_upper c then ascii_of_nat (nat_of_ascii c + 32) else c.

Definition py_upper_char (c : ascii) : ascii :=
  if is_lower c then ascii_of_nat (nat_of_ascii c - 32) else c.

(** [c.title()]: the sharp s (223) becomes the two letters [Ss]. The title
    case of the micro sign (181) and of y with diaeresis (255) lies above
    255; these two characters are left as they are. *)
Definition py_title_char (c : ascii) : string :=
  if Nat.eqb (nat_of_ascii c) 223 then "Ss"
  else String (py_upper_char c) EmptyString.

(** The cased characters: the letters above, the two ordinal indicators
    (170, 186), the micro sign (181), the sharp s (223) and y with
    diaeresis (255). *)
Definition is_cased (c : ascii) : bool :=
  let n := nat_of_ascii c in
  is_upper c || is_lower c ||
  Nat.eqb n 170 || Nat.eqb n 181 || Nat.eqb n 186 || Nat.eqb n 223 || Nat.eqb n 255.

Fixpoint smap (f : ascii → ascii) (s : string) : string :=
  match s with
  | EmptyString => EmptyString
  | String c s' => String (f c) (smap f s')
  end.

Fixpoint sall (p : ascii → bool) (s : string) : bool :=
  match s with
  | EmptyString => true
  | String c s' => p c && sall p s'
  end.

(** [s.lower()] *)
Definition lower (s : string) : string := smap py_lower_char s.

(** [s.title()]: a character is title-cased when the character before it
    is not cased, and lower-cased otherwise. *)
Fixpoint title_go (prev_cased : bool) (s : string) : string :=
  match s with
  | EmptyString => EmptyString
  | String c s' =>
      (if prev_cased then String (py_lower_char c) EmptyString else py_title_char c)
      +:+ title_go (is_cased c) s'
  end.
Definition title (s : string) : string := title_go false s.

(** [s.replace(' ', '_')] *)
Definition replace_space (s : string) : string :=
  smap (λ c, if Ascii.eqb c " " then "_"%char else c) s.

(** [s.lstrip()], [s.rstrip()], [s.strip()] *)
Fixpoint lstrip (s : string) : string :=
  match s with
  | EmptyString => EmptyString
  | String c s' => if py_isspace c then lstrip s' else s
  end.

Fixpoint rstrip (s : string) : string :=
  match s with
  | EmptyString => EmptyString
  | String c s' =>
      match rstrip s' with
      | EmptyString => if py_isspace c then EmptyString else String c EmptyString
      | r => String c r
      end
  end.

Definition strip (s : string) : string := rstrip (lstrip s).

(** [s.split()]: the maximal runs of non-space characters, in order. *)
Definition flush (cur : string) : list string :=
  match cur with EmptyString => [] | _ => [cur] end.

Fixpoint split_go (cur : string) (s : string) : list string :=
  match s with
  | EmptyString => flush cur
  | String c s' =>
      if py_isspace c then flush cur ++ split_go EmptyString s'
      else split_go (cur +:+ String c EmptyString) s'
  end.
Definition split (s : string) : list string := split_go EmptyString s.

(** [sep.join(l)] on a list of strings *)
Fixpoint join (sep : string) (l : list string) : string :=
  match l with
  | [] => EmptyString
  | [x] => x
  | x :: rest => x +:+ sep +:+ join sep rest
  end.

(** [s[:n]] *)
Definition prefix (n : nat) (s : string) : string := String.substring 0 n s.

(** [bool(s)] *)
Definition nonempty (s : string) : bool :=
  match s with EmptyString => false | _ => true end.

(** the characters of [s], as [for c in s] yields them *)
Fixpoint chars (s : string) : list string :=
  match s with
  | EmptyString => []
  | String c s' => String c EmptyString :: chars s'
  end.

End PyStr.
Import PyStr.

(** ** Python values and exceptions *)

#[local] Set Warnings "-register-all".

Inductive pyval : Type :=
| PNone
| PBool (b : bool)
| PInt (z : Z)
| PStr (s : string)
| PList (l : list pyval)
| PDict (d : list (string * pyval)).

Inductive exn : Type :=
| AttributeError
| TypeError
| KeyError
| ExternalError.

Inductive result (A : Type) : Type :=
| Ok (a : A)
| Raise (e : exn).
Arguments Ok {A} a.
Arguments Raise {A} e.

(** Sequencing: the first exception ends the block. With these instances
    [x ← m; k] is stdpp's notation for it. *)
#[export] Instance result_bind : MBind result := λ A B f m,
  match m with
  | Ok a => f a
  | Raise e => Raise e
  end.
#[export] Instance result_ret : MRet result := λ A a, Ok a.

(** [for x in l: st = body(st, x)], stopping at the first exception *)
Fixpoint for_each {A S} (body : S → A → result S) (l : list A) (st : S) : result S :=
  match l with
  | [] => Ok st
  | x :: rest => st' ← body st x; for_each body rest st'
  end.

(** [try: m except Exception: h] *)
Definition try_except {A} (m : result A) (h : exn → A) : A :=
  match m with
  | Ok a => a
  | Raise e => h e
  end.

(** [bool(v)] *)
Definition truthy (v : pyval) : bool :=
  match v with
  | PNone => false
  | PBool b => b
  | PInt z => negb (z =? 0)
  | PStr s => nonempty s
  | PList l => match l with [] => false | _ => true end
  | PDict d => match d with [] => false | _ => true end
  end.

(** [isinstance(v, dict)] *)
Definition isinstance_dict (v : pyval) : bool :=
  match v with PDict _ => true | _ => false end.

(** first binding of [k] in a dict *)
Fixpoint dict_lookup {V} (d : list (string * V)) (k : string) : option V :=
  match d with
  | [] => None
  | (k', v) :: rest => if String.eqb k' k then Some v else dict_lookup rest k
  end.

(** [d.get(k, dflt)] on a dict *)
Definition dict_get {V} (d : list (string * V)) (k : string) (dflt : V) : V :=
  default dflt (dict_lookup d k).

(** [v.get(k, dflt)] on any value: only a dict has the method *)
Definition py_get (v : pyval) (k : string) (dflt : pyval) : result pyval :=
  match v with
  | PDict d => Ok (dict_get d k dflt)
  | _ => Raise AttributeError
  end.

(** [v.split()] on any value: only a str has the method *)
Definition py_split (v : pyval) : result (list string) :=
  match v with
  | PStr s => Ok (split s)
  | _ => Raise AttributeError
  end.

(** [v == s] for a str [s] *)
Definition py_eq_str (v : pyval) (s : string) : bool :=
  match v with
  | PStr t => String.eqb t s
  | _ => false
  end.

(** [iter(v)]: the elements of a list, the characters of a str, the keys of
    a dict; nothing else here is iterable *)
Definition py_iter (v : pyval) : result (list pyval) :=
  match v with
  | PList l => Ok l
  | PStr s => Ok (PStr <$> chars s)
  | PDict d => Ok ((λ kv, PStr kv.1) <$> d)
  | _ => Raise TypeError
  end.

(** the items of [sep.join(...)] must all be str *)
Fixpoint expect_strs (l : list pyval) : result (list string) :=
  match l with
  | [] => Ok []
  | PStr s :: rest => ss ← expect_strs rest; Ok (s :: ss)
  | _ :: _ => Raise TypeError
  end.

(** [sep.join(v)] *)
Definition py_join (sep : string) (v : pyval) : result string :=
  items ← py_iter v;
  ss ← expect_strs items;
  Ok (join sep ss).

(** ** Enrichment capability adapter ([utils.py], lines 24-47) *)

Section Adapter.

(** [sentiment_pipeline(text)[0]['label']]; [None] when the call or the
    indexing raises *)
Variable sentiment_pipeline : string → option string.

(** [summarizer(text, max_length=.., min_length=.., do_sample=False)[0]['summary_text']];
    [None] when the call or the indexing raises *)
Variable summarizer : string → Z → Z → option string.

Definition analyze_sentiment (text : string) : string :=
  if negb (nonempty (strip text)) then "Neutral"
  else
    match sentiment_pipeline (prefix 512 text) with
    | Some label => if String.eqb label "POSITIVE" then "Positive" else "Negative"
    | None => "Neutral"
    end.

Definition word_count (text : string) : Z := Z.of_nat (length (split text)).

Definition max_length (input_length : Z) : Z := Z.min 150 (input_length - 10).
Definition min_length (input_length : Z) : Z := Z.max 30 (input_length / 4).

Definition summarize (text : string) : string :=
  let words := split text in
  if Z.of_nat (length words) <? 30 then text
  else
    let input_length := Z.of_nat (length words) in
    match summarizer text (max_length input_length) (min_length input_length) with
    | Some summary => summary
    | None => prefix 150 text +:+ "..."
    end.

End Adapter.

(** ** Comparative analyzer ([utils.py], lines 49-117) *)

(** The four accumulators of the loop over the articles. *)
Record loop_state : Type := LoopState {
  sentiment_counts : gmap string Z;
  all_topics : list string;
  pos_titles : list pyval;
  neg_titles : list pyval
}.

(** The report dict returned on success. *)
Record report : Type := Report {
  sentiment_distribution : gmap string Z;
  common_topics : list string;
  coverage_differences : list string;
  final_sentiment_analysis : string
}.

(** What [analyze_articles] returns: the single-key error dict or the
    report dict. *)
Inductive analysis : Type :=
| AnalysisError (msg : string)
| AnalysisReport (r : report).

(** [sentiment in sentiment_counts]: a list or a dict is unhashable, a str
    is looked up, any other value equals no key *)
Definition py_in_counts (v : pyval) (counts : gmap string Z) : result bool :=
  match v with
  | PList _ | PDict _ => Raise TypeError
  | PStr s => Ok (bool_decide (is_Some (counts !! s)))
  | _ => Ok false
  end.

(** [counts[k]] *)
Definition counts_item (counts : gmap string Z) (k : string) : result Z :=
  match counts !! k with
  | Some n => Ok n
  | None => Raise KeyError
  end.

(** [counts[k] += 1] *)
Definition counts_incr (counts : gmap string Z) (k : string) : result (gmap string Z) :=
  n ← counts_item counts k;
  Ok (<[k := n + 1]> counts).

(** [[word.strip().lower() for word in words[:3] if word.strip()]] *)
Definition title_topics (words : list string) : list string :=
  (λ word, lower (strip word)) <$> filter (λ word, nonempty (strip word) = true) (take 3 words).

(** One iteration of the loop of lines 66-81. Only a str can be [known],
    so the subscript of line 69 is a string key. *)
Definition article_step (st : loop_state) (article : pyval) : result loop_state :=
  sentiment ← py_get article "sentiment" (PStr "Neutral");
  known ← py_in_counts sentiment (sentiment_counts st);
  counts ← (if known : bool
            then match sentiment with
                 | PStr s => counts_incr (sentiment_counts st) s
                 | _ => Raise KeyError
                 end
            else counts_incr (sentiment_counts st) "Neutral");
  title ← py_get article "title" (PStr EmptyString);
  let pos := if py_eq_str sentiment "Positive"
             then pos_titles st ++ [title] else pos_titles st in
  let neg := if py_eq_str sentiment "Positive" then neg_titles st
             else if py_eq_str sentiment "Negative"
                  then neg_titles st ++ [title] else neg_titles st in
  words ← py_split title;
  let topics := title_topics words in
  Ok (LoopState counts (all_topics st ++ topics) pos neg).

(** [topic_counter[topic] = v]: an existing key keeps its place, a new key
    goes last *)
Fixpoint dict_set (d : list (string * Z)) (k : string) (v : Z) : list (string * Z) :=
  match d with
  | [] => [(k, v)]
  | (k', v') :: rest =>
      if String.eqb k' k then (k', v) :: rest else (k', v') :: dict_set rest k v
  end.

(** [topic_counter[topic] = topic_counter.get(topic, 0) + 1] *)
Definition count_topic (topic_counter : list (string * Z)) (topic : string) : list (string * Z) :=
  dict_set topic_counter topic (dict_get topic_counter topic 0 + 1).

(** [sorted(items, key=lambda x: x[1], reverse=True)]: a stable sort, so of
    two items with the same count the one that comes first in [items] stays
    first *)
Fixpoint insert_desc (x : string * Z) (l : list (string * Z)) : list (string * Z) :=
  match l with
  | [] => [x]
  | y :: rest => if x.2 <? y.2 then y :: insert_desc x rest else x :: y :: rest
  end.

Fixpoint sorted_desc (items : list (string * Z)) : list (string * Z) :=
  match items with
  | [] => []
  | x :: rest => insert_desc x (sorted_desc rest)
  end.

Definition positive_sentence : string := "News coverage is mostly positive.".
Definition negative_sentence : string := "News coverage is mostly negative.".
Definition balanced_sentence : string := "Overall news coverage appears balanced.".

(** [{"Positive": 0, "Negative": 0, "Neutral": 0}] *)
Definition initial_counts : gmap string Z :=
  <["Neutral" := 0]> (<["Negative" := 0]> (<["Positive" := 0]> ∅)).

(** The body of the [try] block after the emptiness test. *)
Definition analyze_body (articles : list pyval) : result report :=
  st ← for_each article_step articles (LoopState initial_counts [] [] []);
  let topic_counter := fold_left count_topic (all_topics st) [] in
  let top := take 3 (sorted_desc topic_counter) in
  let common := (λ topic, title topic.1) <$> top in
  n_pos ← counts_item (sentiment_counts st) "Positive";
  n_neg ← counts_item (sentiment_counts st) "Negative";
  let coverage := [pretty n_pos +:+ " articles highlight positive developments";
                   pretty n_neg +:+ " articles discuss challenges/risks"] in
  coverage ← (if truthy (PList (pos_titles st))
              then joined ← py_join ", " (PList (take 2 (pos_titles st)));
                   Ok (coverage ++ ["Positive articles include: " +:+ joined])
              else Ok coverage);
  coverage ← (if truthy (PList (neg_titles st))
              then joined ← py_join ", " (PList (take 2 (neg_titles st)));
                   Ok (coverage ++ ["Negative articles include: " +:+ joined])
              else Ok coverage);
  p ← counts_item (sentiment_counts st) "Positive";
  n ← counts_item (sentiment_counts st) "Negative";
  let overall_sentiment :=
    if n <? p then positive_sentence
    else if p <? n then negative_sentence
    else balanced_sentence in
  Ok (Report (sentiment_counts st) common coverage overall_sentiment).

Definition analyze_articles (articles : list pyval) : analysis :=
  match articles with
  | [] => AnalysisError "No articles to analyze"
  | _ => try_except (r ← analyze_body articles; Ok (AnalysisReport r))
                    (λ _, AnalysisError "Analysis failed")
  end.

(** ** Narrative synthesizer and speech adapter ([utils.py], lines 119-187) *)

(** What the function does to the outside world, in order. *)
Inductive event : Type :=
| LogError (msg : string)
| LogInfo (msg : string)
| LogCaught (context : string) (e : exn)
| Makedirs (path : string)
| Translate (text : string)
| Speak (text path : string).

(** A computation that leaves a trace of events and returns or raises. *)
Definition traced (A : Type) : Type := list event * result A.

#[export] Instance traced_ret : MRet traced := λ A a, ([], Ok a).
#[export] Instance traced_bind : MBind traced := λ A B f m,
  match m with
  | (evs, Ok a) => let '(evs', r) := f a in (evs ++ evs', r)
  | (evs, Raise e) => (evs, Raise e)
  end.

Definition emit (ev : event) : traced unit := ([ev], Ok tt).
Definition lift {A} (r : result A) : traced A := ([], r).

(** [try: m except Exception as e: h(e)] around a traced block *)
Definition traced_try {A} (m : traced A) (h : exn → list event * A) : list event * A :=
  match m with
  | (evs, Ok a) => (evs, a)
  | (evs, Raise e) => let '(evs', a) := h e in (evs ++ evs', a)
  end.

(** [enumerate(l, start=i)] *)
Fixpoint enumerate {A} (i : Z) (l : list A) : list (Z * A) :=
  match l with
  | [] => []
  | x :: rest => (i, x) :: enumerate (i + 1) rest
  end.

(** [os.path.join(a, b)] on POSIX paths *)
Definition path_join (a b : string) : string :=
  match b with
  | String "/" _ => b
  | _ =>
      match String.rev a with
      | EmptyString => b
      | String "/" _ => a +:+ b
      | _ => a +:+ "/" +:+ b
      end
  end.

Definition no_analysis_placeholder : string := "No sentiment analysis available".

Section Narration.

(** [settings.MEDIA_ROOT] *)
Variable MEDIA_ROOT : string.
(** [os.makedirs(path, exist_ok=True)] returns ([true]) or raises *)
Variable makedirs : string → bool.
(** [GoogleTranslator(source='auto', target='hi').translate(text)];
    [None] when it raises *)
Variable translate : string → option string.
(** [gTTS(text, lang='hi').save(path)] returns ([true]) or raises *)
Variable gtts_save : string → string → bool.
(** [os.path.exists(path)] after the save *)
Variable path_exists : string → bool.
(** the interpreter's [hash] on a str, as it is in the running process *)
Variable py_hash : string → Z.
(** the interpreter's [repr] of a list or a dict *)
Variable py_repr : pyval → string.

(** [str(v)], as an f-string formats [v] *)
Definition py_str (v : pyval) : string :=
  match v with
  | PNone => "None"
  | PBool true => "True"
  | PBool false => "False"
  | PInt z => pretty z
  | PStr s => s
  | PList _ | PDict _ => py_repr v
  end.

(** Lines 141-162: the script. *)
Definition build_summary_text (company_name : string) (analysis_data : pyval) : result string :=
  sentiment_summary ← py_get analysis_data "final_sentiment_analysis" (PStr no_analysis_placeholder);
  sentiment_dist ← py_get analysis_data "sentiment_distribution" (PDict []);
  common_topics ← py_get analysis_data "common_topics" (PList []);
  coverage_diff ← py_get analysis_data "coverage_differences" (PList []);
  n_pos ← py_get sentiment_dist "Positive" (PInt 0);
  n_neg ← py_get sentiment_dist "Negative" (PInt 0);
  n_neu ← py_get sentiment_dist "Neutral" (PInt 0);
  let summary_text :=
    "Company: " +:+ company_name +:+ ". " +:+
    "Overall Sentiment: " +:+ py_str sentiment_summary +:+ ". " +:+
    "Positive articles: " +:+ py_str n_pos +:+ ", " +:+
    "Negative articles: " +:+ py_str n_neg +:+ ", " +:+
    "Neutral articles: " +:+ py_str n_neu +:+ ". " in
  summary_text ← (if truthy common_topics
                  then joined ← py_join ", " common_topics;
                       Ok (summary_text +:+ ("Common topics include " +:+ joined +:+ ". "))
                  else Ok summary_text);
  summary_text ← (if truthy coverage_diff
                  then items ← py_iter coverage_diff;
                       let insights :=
                         fold_left (λ insights '(i, insight),
                                      insights ++ [pretty i +:+ ". " +:+ py_str insight])
                                   (enumerate 1 items) [] in
                       let insights_text :=
                         "Key insights are: " +:+ join " " insights +:+ ". " in
                       Ok (summary_text +:+ insights_text)
                  else Ok summary_text);
  Ok summary_text.

(** Line 171: the name of the audio file. *)
Definition audio_filename (company_name summary_text : string) : string :=
  replace_space company_name +:+ "_" +:+ pretty (py_hash summary_text) +:+ ".mp3".

Definition generate_tts (company_name : string) (analysis_data : pyval)
  : list event * option string :=
  traced_try
    (if negb (truthy analysis_data) || negb (isinstance_dict analysis_data)
     then
       _ ← emit (LogError "Invalid analysis_data provided to generate_tts()");
       mret None
     else
       let media_dir := MEDIA_ROOT in
       _ ← emit (Makedirs media_dir);
       _ ← lift (if makedirs media_dir then Ok tt else Raise ExternalError);
       summary_text ← lift (build_summary_text company_name analysis_data);
       _ ← emit (LogInfo ("Generated summary text: " +:+ summary_text));
       _ ← emit (Translate summary_text);
       translated_text ← lift (match translate summary_text with
                               | Some t => Ok t
                               | None => Raise ExternalError
                               end);
       _ ← emit (LogInfo ("Translated text: " +:+ translated_text));
       let filename := audio_filename company_name summary_text in
       let file_path := path_join media_dir filename in
       _ ← emit (LogInfo ("Saving TTS audio to: " +:+ file_path));
       _ ← emit (Speak translated_text file_path);
       _ ← lift (if gtts_save translated_text file_path then Ok tt else Raise ExternalError);
       if path_exists file_path
       then _ ← emit (LogInfo ("TTS file created: " +:+ file_path));
            mret (Some filename)
       else _ ← emit (LogError ("TTS file was not created: " +:+ file_path));
            mret None)
    (λ e, ([LogCaught "TTS generation error: " e], None)).

(** ** The [tts] view ([api.py], lines 94-120), from the two request
    fields to the status code and the error message or audio file *)
Inductive response : Type :=
| Response400 (error : string)
| Response500 (error : string)
| Response200 (audio_filename : string).

Definition tts (company_name_field : string) (analysis_data : pyval)
  : list event * response :=
  let company_name := strip company_name_field in
  if negb (nonempty company_name) then ([], Response400 "company_name is required")
  else if negb (truthy analysis_data) then ([], Response400 "Analysis data is required")
  else
    let '(evs, audio) := generate_tts company_name analysis_data in
    match audio with
    | Some f => if nonempty f then (evs, Response200 f)
                else (evs, Response500 "TTS generation failed")
    | None => (evs, Response500 "TTS generation failed")
    end.

End Narration.

(** ** Concurrent enrichment orchestrator ([api.py], lines 40-57) *)

(** The dict built for each fetched article; [art_sentiment] is [None]
    until the key is set. *)
Record article : Type := Article {
  art_title : string;
  art_summary : string;
  art_link : string;
  art_source : string;
  art_sentiment : option string
}.

(** Where a worker is in [process_article]. *)
Inductive progress : Type :=
| Submitted
| SentimentSet
| Finished.

#[export] Instance progress_eq_dec : EqDecision progress.
Proof. solve_decision. Defined.

(** A future of [executor.map]: the article dict the task owns and how far
    the task has run. *)
Record task : Type := Task {
  task_article : article;
  task_progress : progress
}.

Section Orchestrator.

Variable sentiment_pipeline : string → option string.
Variable summarizer : string → Z → Z → option string.

(** [article['sentiment'] = analyze_sentiment(article['summary'])] *)
Definition set_sentiment (a : article) : article :=
  Article (art_title a) (art_summary a) (art_link a) (art_source a)
          (Some (analyze_sentiment sentiment_pipeline (art_summary a))).

(** [article['summary'] = summarize(article['summary'])] *)
Definition set_summary (a : article) : article :=
  Article (art_title a) (summarize summarizer (art_summary a)) (art_link a)
          (art_source a) (art_sentiment a).

Definition process_article (a : article) : article :=
  set_summary (set_sentiment a).

(** One statement of one task. *)
Definition task_step (t : task) : option task :=
  match task_progress t with
  | Submitted => Some (Task (set_sentiment (task_article t)) SentimentSet)
  | SentimentSet => Some (Task (set_summary (task_article t)) Finished)
  | Finished => None
  end.

(** [executor.map] submits one future per article, in order. *)
Definition submit_all (articles : list article) : list task :=
  (λ a, Task a Submitted) <$> articles.

(** The workers run the tasks in any interleaving: a step of the pool is a
    step of any one unfinished task. *)
Inductive pool_step : list task → list task → Prop :=
| PoolStep (pool : list task) (i : nat) (t t' : task) :
    pool !! i = Some t →
    task_step t = Some t' →
    pool_step pool (<[i := t']> pool).

Definition all_done (pool : list task) : Prop :=
  Forall (λ t, task_progress t = Finished) pool.

(** [list(executor.map(process_article, articles))]: the results of the
    futures, read in submission order once all have finished. *)
Definition collect (pool : list task) : list article :=
  task_article <$> pool.

(** A schedule names the task that moves at each step; a name that is out
    of range or of a finished task is skipped. *)
Definition run_step (pool : list task) (i : nat) : list task :=
  match pool !! i with
  | Some t => match task_step t with
              | Some t' => <[i := t']> pool
              | None => pool
              end
  | None => pool
  end.

Definition run_schedule (schedule : list nat) (pool : list task) : list task :=
  fold_left run_step schedule pool.

(** The article dict of a task that has come as far as [pr]. *)
Definition article_at (pr : progress) (a : article) : article :=
  match pr with
  | Submitted => a
  | SentimentSet => set_sentiment a
  | Finished => process_article a
  end.

(** Every future holds the article submitted at its position, as far as
    its own task has changed it. *)
Definition pool_inv (articles : list article) (pool : list task) : Prop :=
  length pool = length articles ∧
  ∀ i a t, articles !! i = Some a → pool !! i = Some t →
           task_article t = article_at (task_progress t) a.

End Orchestrator.

(** ** Vocabulary of the properties *)

(** An enriched article, as the analyzer receives it: a dict whose
    [sentiment] and [title], when present, are strings. *)
Definition sentiment_of (a : pyval) : string :=
  match a with
  | PDict d => match dict_get d "sentiment" (PStr "Neutral") with PStr s => s | _ => EmptyString end
  | _ => EmptyString
  end.

Definition title_of (a : pyval) : string :=
  match a with
  | PDict d => match dict_get d "title" (PStr EmptyString) with PStr s => s | _ => EmptyString end
  | _ => EmptyString
  end.

Definition enriched (a : pyval) : bool :=
  match a with
  | PDict d =>
      match dict_get d "sentiment" (PStr "Neutral"), dict_get d "title" (PStr EmptyString) with
      | PStr _, PStr _ => true
      | _, _ => false
      end
  | _ => false
  end.

(** How many articles carry the label. *)
Definition label_count (label : string) (articles : list pyval) : Z :=
  Z.of_nat (length (filter (λ a, sentiment_of a = label) articles)).

(** How many articles carry neither "Positive" nor "Negative". *)
Definition other_count (articles : list pyval) : Z :=
  Z.of_nat (length (filter (λ a, sentiment_of a ≠ "Positive" ∧ sentiment_of a ≠ "Negative")
                           articles)).

(** The titles of the articles that carry the label, in input order. *)
Definition titles_with (label : string) (articles : list pyval) : list string :=
  title_of <$> filter (λ a, sentiment_of a = label) articles.

(** The first 3 whitespace-delimited tokens of each title, lower-cased, in
    input order. *)
Definition topic_tokens (articles : list pyval) : list string :=
  concat ((λ a, lower <$> take 3 (split (title_of a))) <$> articles).

(** How often a topic occurs, and where it occurs first. *)
Definition occurrences (t : string) (l : list string) : Z :=
  Z.of_nat (length (filter (λ x, x = t) l)).

Fixpoint first_seen (t : string) (l : list string) : nat :=
  match l with
  | [] => 0
  | x :: rest => if String.eqb x t then 0%nat else S (first_seen t rest)
  end.

(** [a] ranks before [b]: it occurs more often, or as often and earlier. *)
Definition ranks_before (l : list string) (a b : string) : Prop :=
  occurrences b l < occurrences a l ∨
  (occurrences a l = occurrences b l ∧ (first_seen a l < first_seen b l)%nat).

(** The optional sentence of the coverage differences for one label. *)
Definition titles_sentence (heading : string) (titles : list string) : list string :=
  match titles with
  | [] => []
  | _ => [heading +:+ join ", " (take 2 titles)]
  end.

(** The script as the specification words it, section by section. *)
Definition company_line (name verdict : string) : string :=
  "Company: " +:+ name +:+ ". Overall Sentiment: " +:+ verdict +:+ ". ".

Definition counts_line (p n z : Z) : string :=
  "Positive articles: " +:+ pretty p +:+ ", Negative articles: " +:+ pretty n +:+
  ", Neutral articles: " +:+ pretty z +:+ ". ".

Definition topics_line (topics : list string) : string :=
  match topics with
  | [] => EmptyString
  | _ => "Common topics include " +:+ join ", " topics +:+ ". "
  end.

Definition numbered (items : list string) : list string :=
  imap (λ k item, pretty (Z.of_nat k + 1) +:+ ". " +:+ item) items.

Definition insights_line (items : list string) : string :=
  match items with
  | [] => EmptyString
  | _ => "Key insights are: " +:+ join " " (numbered items) +:+ ". "
  end.

Definition script_spec (name verdict : string) (p n z : Z) (topics items : list string) : string :=
  company_line name verdict +:+ counts_line p n z +:+ topics_line topics +:+ insights_line items.

(** A payload the narrative step must reject: null, an empty object, or
    not an object. *)
Definition invalid_payload (v : pyval) : Prop :=
  v = PNone ∨ v = PDict [] ∨ isinstance_dict v = false.

Definition nonspace (c : ascii) : bool := negb (py_isspace c).

(** A token of [split] is a non-empty run of non-space characters. *)
Definition is_token (w : string) : Prop := w ≠ EmptyString ∧ sall nonspace w = true.

Definition three_labels : gset string := {["Positive"; "Negative"; "Neutral"]}.

(** The tally holds [p], [n] and [z] under its three keys and has no other
    key. *)
Definition tally (counts : gmap string Z) (p n z : Z) : Prop :=
  counts !! "Positive" = Some p ∧ counts !! "Negative" = Some n ∧
  counts !! "Neutral" = Some z ∧ dom counts = three_labels.

(** The topics as the analyzer ranks them: the keys of the stably sorted
    frequency table, cut after three. *)
Definition ranked_topics (articles : list pyval) : list string :=
  (take 3 (sorted_desc (fold_left count_topic (topic_tokens articles) []))).*1.

(** The table after the topics [l]: every topic of [l] has one entry, with
    its number of occurrences, and the entries are in first-seen order. *)
Definition counts_topics (tc : list (string * Z)) (l : list string) : Prop :=
  (∀ k, dict_lookup tc k = if decide (k ∈ l) then Some (occurrences k l) else None) ∧
  StronglySorted (λ a b, (first_seen a l < first_seen b l)%nat) tc.*1.

(** How many articles carry a label outside the three. *)
Definition unrecognized_count (articles : list pyval) : Z :=
  Z.of_nat (length (filter (λ a, sentiment_of a ∉ three_labels) articles)).

(** The fields of a well-typed analysis mapping; [None] is a missing key. *)
Record analysis_fields : Type := AnalysisFields {
  f_verdict : option string;
  f_distribution : option (list (string * pyval));
  f_positive : option Z;
  f_negative : option Z;
  f_neutral : option Z;
  f_topics : option (list string);
  f_insights : option (list string)
}.

(** The dict [d] holds these fields, each with the type the analyzer gives
    it: a str, a dict of ints, two lists of str. *)
Definition has_fields (d : list (string * pyval)) (f : analysis_fields) : Prop :=
  dict_lookup d "final_sentiment_analysis" = PStr <$> f_verdict f ∧
  dict_lookup d "sentiment_distribution" = PDict <$> f_distribution f ∧
  dict_lookup (default [] (f_distribution f)) "Positive" = PInt <$> f_positive f ∧
  dict_lookup (default [] (f_distribution f)) "Negative" = PInt <$> f_negative f ∧
  dict_lookup (default [] (f_distribution f)) "Neutral" = PInt <$> f_neutral f ∧
  dict_lookup d "common_topics" = (λ l, PList (PStr <$> l)) <$> f_topics f ∧
  dict_lookup d "coverage_differences" = (λ l, PList (PStr <$> l)) <$> f_insights f.

(** The script the specification describes for these fields, with the
    defaults for the missing ones. *)
Definition script_of (company_name : string) (f : analysis_fields) : string :=
  script_spec company_name
    (default no_analysis_placeholder (f_verdict f))
    (default 0 (f_positive f)) (default 0 (f_negative f)) (default 0 (f_neutral f))
    (default [] (f_topics f)) (default [] (f_insights f)).

(** The statements a task has still to run. *)
Definition task_remaining (t : task) : nat :=
  match task_progress t with
  | Submitted => 2
  | SentimentSet => 1
  | Finished => 0
  end.

Definition pool_remaining (pool : list task) : nat :=
  sum_list (task_remaining <$> pool).

(** The order [sorted_desc] establishes on a list whose items stand in the
    order [before]: higher count first; of two equal counts the earlier
    item first. *)
Definition sort_order (before : relation (string * Z)) (a b : string * Z) : Prop :=
  b.2 < a.2 ∨ (a.2 = b.2 ∧ before a b).

(** ** Vocabulary of the further properties *)

(** An article the loop of the analyzer gets through: a dict whose
    [sentiment] is hashable (not a list, not a dict) and whose [title] is a
    str; both may be missing. *)
Definition processable (a : pyval) : bool :=
  match a with
  | PDict d =>
      match dict_get d "sentiment" (PStr "Neutral"), dict_get d "title" (PStr EmptyString) with
      | PList _, _ | PDict _, _ => false
      | _, PStr _ => true
      | _, _ => false
      end
  | _ => false
  end.

(** The sentiment of an article counts as Neutral: it is anything but the
    str "Positive" or the str "Negative" (a missing key, null, a number, a
    boolean or another str). *)
Definition counted_neutral (a : pyval) : bool :=
  match a with
  | PDict d =>
      negb (py_eq_str (dict_get d "sentiment" (PStr "Neutral")) "Positive") &&
      negb (py_eq_str (dict_get d "sentiment" (PStr "Neutral")) "Negative")
  | _ => false
  end.

(** The value [analyze_articles] returns, as the dict the source builds:
    the report of lines 109-114, its distribution with the keys in the
    order of line 59, or the single-key error dict. *)
Definition distribution_json (counts : gmap string Z) : list (string * pyval) :=
  omap (λ k, (λ v, (k, PInt v)) <$> counts !! k) ["Positive"; "Negative"; "Neutral"].

Definition report_json (r : report) : pyval :=
  PDict [("sentiment_distribution", PDict (distribution_json (sentiment_distribution r)));
         ("common_topics", PList (PStr <$> common_topics r));
         ("coverage_differences", PList (PStr <$> coverage_differences r));
         ("final_sentiment_analysis", PStr (final_sentiment_analysis r))].

Definition analysis_json (a : analysis) : pyval :=
  match a with
  | AnalysisError msg => PDict [("error", PStr msg)]
  | AnalysisReport r => report_json r
  end.

(** What [os.path.join] puts between [root] and a name that does not begin
    with a slash: nothing when [root] is empty or ends with a slash, a slash
    otherwise. *)
Definition separator (root : string) : string :=
  match String.rev root with
  | EmptyString => EmptyString
  | String c _ => if Ascii.eqb c "/" then EmptyString else "/"
  end.

(** The character is none of the sharp s (223), the micro sign (181) and y
    with diaeresis (255), the three characters below 256 whose title case is
    not one character below 256; the string has none of them. *)
Definition plain_char (c : ascii) : bool :=
  let n := nat_of_ascii c in
  negb (Nat.eqb n 181 || Nat.eqb n 223 || Nat.eqb n 255).

Definition plain_case (s : string) : bool := sall plain_char s.

(** The event is a call of the speech synthesis. *)
Definition is_speak (ev : event) : bool :=
  match ev with Speak _ _ => true | _ => false end.

(** The string begins with a slash. *)
Definition starts_with_slash (s : string) : bool :=
  match s with String "/" _ => true | _ => false end.

(** ** The [get_news] and [analyze] views ([api.py], lines 12-92) *)

(** What [requests.get], [raise_for_status] and [response.json] come to: a
    [requests.exceptions.RequestException], any other exception, or the
    decoded body. *)
Inductive fetched : Type :=
| FetchRequestError
| FetchError (e : exn)
| FetchJson (news_data : pyval).

(** The responses of [get_news]: the status and the error message, the
    exception whose text is the message of a 500, or the success body. *)
Inductive news_response : Type :=
| News400 (error : string)
| News404 (error : string)
| News502 (error : string)
| News500 (e : exn)
| News200 (company : string) (articles : list pyval) (count : Z).

(** The responses of [analyze]. *)
Inductive analyze_response : Type :=
| Analyze400 (error : string)
| Analyze500 (e : exn)
| Analyze200 (articles : pyval) (comparative : pyval).

(** [[f(x) for x in l]], stopping at the first exception *)
Fixpoint result_map {A B} (f : A → result B) (l : list A) : result (list B) :=
  match l with
  | [] => Ok []
  | x :: rest => y ← f x; ys ← result_map f rest; Ok (y :: ys)
  end.

(** [d[k] = v] on a dict: an existing key keeps its place, a new key goes
    last *)
Fixpoint dict_store {V} (d : list (string * V)) (k : string) (v : V) : list (string * V) :=
  match d with
  | [] => [(k, v)]
  | (k', v') :: rest =>
      if String.eqb k' k then (k', v) :: rest else (k', v') :: dict_store rest k v
  end.

(** [d[k]] on a dict *)
Definition dict_item (d : list (string * pyval)) (k : string) : result pyval :=
  match dict_lookup d k with
  | Some v => Ok v
  | None => Raise KeyError
  end.

(** [v or ''] *)
Definition or_empty (v : pyval) : pyval :=
  if truthy v then v else PStr EmptyString.

(** Lines 42-48: the dict built for one fetched article. *)
Definition build_article (article : pyval) : result (list (string * pyval)) :=
  description ← py_get article "description" PNone;
  let summary := or_empty description in
  title ← py_get article "title" (PStr EmptyString);
  link ← py_get article "url" (PStr EmptyString);
  source ← py_get article "source" (PDict []);
  name ← py_get source "name" (PStr EmptyString);
  Ok [("title", title); ("summary", summary); ("link", link); ("source", name)].

Section NewsView.

Variable sentiment_pipeline : string → option string.
Variable summarizer : string → Z → Z → option string.
(** the NewsAPI query for a company name *)
Variable fetch : string → fetched.

(** [analyze_sentiment(v)] on any value: on a value that is not a str
    [v.strip()] raises inside the [try]. *)
Definition py_analyze_sentiment (v : pyval) : string :=
  match v with
  | PStr text => analyze_sentiment sentiment_pipeline text
  | _ => "Neutral"
  end.

(** [summarize(v)] on any value: on a value that is not a str [v.split()]
    raises inside the [try], and [v[:150] + "..."] raises inside the
    handler. *)
Definition py_summarize (v : pyval) : result string :=
  match v with
  | PStr text => Ok (summarize summarizer text)
  | _ => Raise TypeError
  end.

(** Lines 51-54, on the dict of one article. *)
Definition py_process_article (article : list (string * pyval))
  : result (list (string * pyval)) :=
  summary ← dict_item article "summary";
  let article := dict_store article "sentiment" (PStr (py_analyze_sentiment summary)) in
  summary ← dict_item article "summary";
  summarized ← py_summarize summary;
  Ok (dict_store article "summary" (PStr summarized)).

Definition get_news (company_name_field : string) : news_response :=
  let company_name := strip company_name_field in
  if negb (nonempty company_name) then News400 "company_name is required"
  else
    match fetch company_name with
    | FetchRequestError => News502 "Failed to fetch news from NewsAPI"
    | FetchError e => News500 e
    | FetchJson news_data =>
        try_except
          (status ← py_get news_data "status" PNone;
           listed ← py_get news_data "articles" PNone;
           if negb (py_eq_str status "ok") || negb (truthy listed)
           then Ok (News404 "No articles found or API error")
           else
             feed ← py_get news_data "articles" (PList []);
             items ← py_iter feed;
             articles ← result_map build_article items;
             articles ← result_map py_process_article articles;
             Ok (News200 company_name (PDict <$> articles) (Z.of_nat (length articles))))
          (λ e, News500 e)
    end.

End NewsView.

(** [analyze], from the [articles] field of the request ([[]] when it is
    missing): a falsy field is refused; a list is copied and analyzed; a
    str is copied and analyzed character by character; anything else
    cannot be sliced. *)
Definition analyze (articles : pyval) : analyze_response :=
  if negb (truthy articles) then Analyze400 "No articles provided"
  else
    match articles with
    | PList l => Analyze200 (PList l) (analysis_json (analyze_articles l))
    | PStr s => Analyze200 (PStr s) (analysis_json (analyze_articles (PStr <$> chars s)))
    | _ => Analyze500 TypeError
    end.

(** The [key] of an article dict is a str (or missing, with a str default). *)
Definition field_is_str (key : string) (a : pyval) : bool :=
  match a with
  | PDict d => match dict_lookup d key with Some (PStr _) => true | _ => false end
  | _ => false
  end.

(** An article as [get_news] returns it, made from the fetched [item]. *)
Definition enriched_from (item article : pyval) : Prop :=
  ∃ title summary link source label,
    article = PDict [("title", title); ("summary", PStr summary); ("link", link);
                     ("source", source); ("sentiment", PStr label)] ∧
    py_get item "title" (PStr EmptyString) = Ok title ∧
    py_get item "url" (PStr EmptyString) = Ok link ∧
    (∃ src, py_get item "source" (PDict []) = Ok src ∧
            py_get src "name" (PStr EmptyString) = Ok source) ∧
    label ∈ three_labels.

(** ** Sample inputs *)

Definition enriched_article (sentiment title : string) : pyval :=
  PDict [("title", PStr title); ("summary", PStr "A short summary.");
         ("link", PStr "https://example.com/a"); ("source", PStr "Example News");
         ("sentiment", PStr sentiment)].

Definition sample_articles : list pyval :=
  [enriched_article "Positive" "Tesla shares rally after earnings";
   enriched_article "Negative" "Tesla recall widens";
   enriched_article "Positive" "Tesla shares climb";
   enriched_article "Mixed" "Analysts split on Tesla"].

(** The analysis mapping of the specification's example. *)
Definition sample_analysis : list (string * pyval) :=
  [("sentiment_distribution",
    PDict [("Positive", PInt 2); ("Negative", PInt 1); ("Neutral", PInt 0)]);
   ("common_topics", PList [PStr "Acme"; PStr "Earnings"]);
   ("coverage_differences",
    PList [PStr "2 articles highlight positive developments";
           PStr "1 articles discuss challenges/risks"]);
   ("final_sentiment_analysis", PStr "News coverage is mostly positive.")].

Definition sample_fields : analysis_fields :=
  AnalysisFields
    (Some "News coverage is mostly positive.")
    (Some [("Positive", PInt 2); ("Negative", PInt 1); ("Neutral", PInt 0)])
    (Some 2) (Some 1) (Some 0)
    (Some ["Acme"; "Earnings"])
    (Some ["2 articles highlight positive developments";
           "1 articles discuss challenges/risks"]).

(** Capabilities that always succeed, and two interpreters whose string
    hash differs. *)
Definition translate_ok (text : string) : option string := Some ("hi: " +:+ text).
Definition makedirs_ok (path : string) : bool := true.
Definition save_ok (text path : string) : bool := true.
Definition exists_ok (path : string) : bool := true.
Definition hash_a (s : string) : Z := Z.of_nat (String.length s).
Definition hash_b (s : string) : Z := - Z.of_nat (String.length s) - 1.
Definition repr_stub (v : pyval) : string := "<container>".

(** A summarizer that answers with the bounds it was called with, and one
    that always fails. *)
Definition echo_bounds (text : string) (max_length min_length : Z) : option string :=
  Some (pretty max_length +:+ "/" +:+ pretty min_length).
Definition failing_summarizer (text : string) (max_length min_length : Z) : option string :=
  None.
Definition label_positive (text : string) : option string := Some "POSITIVE".

(** A text of [n] words. *)
Fixpoint words_text (n : nat) : string :=
  match n with
  | O => EmptyString
  | S m => "word " +:+ words_text m
  end.

Definition raw_article (title summary : string) : article :=
  Article title summary "https://example.com/a" "Example News" None.

Definition sample_raw : list article :=
  [raw_article "First" "Profits rose sharply.";
   raw_article "Second" EmptyString;
   raw_article "Third" (words_text 31)].

(** The verdict of a report, and a list of [p] Positive, [n] Negative and
    one Neutral article. *)
Definition verdict_of (a : analysis) : option string :=
  match a with
  | AnalysisReport r => Some (final_sentiment_analysis r)
  | AnalysisError _ => None
  end.

Definition mixed (p n : nat) : list pyval :=
  replicate p (enriched_article "Positive" "Up") ++
  replicate n (enriched_article "Negative" "Down") ++
  [enriched_article "Neutral" "Flat"].

(** The description of a fetched item is truthy and not a str. *)
Definition bad_description (item : pyval) : Prop :=
  ∃ description, py_get item "description" PNone = Ok description ∧
                 truthy description = true ∧
                 ∀ text, description ≠ PStr text.

(** The string holds no space character. *)
Definition no_space (s : string) : bool :=
  sall (λ c, negb (Ascii.eqb c " ")) s.

(** ** Further sample inputs *)

(** Articles with a missing, a null and a numeric sentiment. *)
Definition loose_articles : list pyval :=
  [PDict [("title", PStr "Quarterly results")];
   PDict [("sentiment", PNone); ("title", PStr "Results call")];
   PDict [("sentiment", PInt 7)];
   enriched_article "Positive" "Results beat forecasts"].

(** A feed as the news service delivers it. *)
Definition feed_item (title description : pyval) : pyval :=
  PDict [("source", PDict [("id", PNone); ("name", PStr "Example News")]);
         ("author", PNone);
         ("title", title);
         ("description", description);
         ("url", PStr "https://example.com/a")].

Definition feed_of (items : list pyval) : pyval :=
  PDict [("status", PStr "ok"); ("totalResults", PInt 2); ("articles", PList items)].

Definition good_items : list pyval :=
  [feed_item (PStr "Tesla shares rally") (PStr "Profits rose sharply.");
   feed_item (PStr "Tesla recall widens") PNone].

Definition bad_items : list pyval :=
  [feed_item (PStr "Tesla shares rally") (PStr "Profits rose sharply.");
   feed_item (PStr "Tesla recall widens") (PInt 5)].

Definition fetch_good (company : string) : fetched := FetchJson (feed_of good_items).
Definition fetch_bad (company : string) : fetched := FetchJson (feed_of bad_items).

(** The articles [get_news] answers on the good feed. *)
Definition good_news_articles : list pyval :=
  match get_news label_positive echo_bounds fetch_good " Tesla " with
  | News200 _ articles _ => articles
  | _ => []
  end.

(** The script and its translation in the sample run of [generate_tts]. *)
Definition acme_script : string := script_of "Acme Corp" sample_fields.
Definition acme_translation : string := "hi: " +:+ acme_script.

(** One article whose title is [école ß ss]: é is the character 233, the
    sharp s the character 223. *)
Definition e_acute : ascii := ascii_of_nat 233.
Definition capital_e_acute : ascii := ascii_of_nat 201.
Definition sharp_s : ascii := ascii_of_nat 223.

Definition sharp_s_articles : list pyval :=
  [enriched_article "Neutral" (String e_acute "cole " +:+ String sharp_s " ss")].

(** * Properties *)

(** ** Strings *)

Lemma app_cons (c : ascii) (s t : string) : String c s +:+ t = String c (s +:+ t).
Proof. reflexivity. Qed.

Lemma app_empty_l (t : string) : EmptyString +:+ t = t.
Proof. reflexivity. Qed.

Lemma app_empty_r (s : string) : s +:+ EmptyString = s.
Proof. induction s as [|c s IH]; [done|]. by rewrite app_cons, IH. Qed.

Lemma app_assoc_s (s t u : string) : (s +:+ t) +:+ u = s +:+ (t +:+ u).
Proof. induction s as [|c s IH]; [done|]. by rewrite !app_cons, IH. Qed.

Lemma sall_snoc (p : ascii → bool) (s : string) (c : ascii) :
  sall p (s +:+ String c EmptyString) = sall p s && p c.
Proof.
  induction s as [|d s IH].
  - rewrite app_empty_l. simpl. by rewrite andb_true_r.
  - rewrite app_cons. simpl. rewrite IH. by rewrite andb_assoc.
Qed.

Lemma flush_tokens (cur : string) :
  sall nonspace cur = true → Forall is_token (flush cur).
Proof.
  intros Hcur. destruct cur as [|c cur]; simpl; [constructor|].
  repeat constructor; done.
Qed.

Lemma split_go_tokens (s cur : string) :
  sall nonspace cur = true → Forall is_token (split_go cur s).
Proof.
  revert cur. induction s as [|c s IH]; intros cur Hcur; simpl.
  - by apply flush_tokens.
  - destruct (py_isspace c) eqn:Hc.
    + apply Forall_app. split; [by apply flush_tokens|by apply IH].
    + apply IH. rewrite sall_snoc, Hcur. unfold nonspace. by rewrite Hc.
Qed.

Lemma split_tokens (s : string) : Forall is_token (split s).
Proof. by apply split_go_tokens. Qed.

Lemma rstrip_token (w : string) : sall nonspace w = true → rstrip w = w.
Proof.
  induction w as [|c w IH]; [done|]. simpl. intros [Hc Hw]%andb_true_iff.
  rewrite (IH Hw). destruct w; [|done].
  unfold nonspace in Hc. by destruct (py_isspace c).
Qed.

Lemma strip_token (w : string) : is_token w → strip w = w.
Proof.
  intros [Hne Hall]. unfold strip.
  assert (lstrip w = w) as ->; [|by apply rstrip_token].
  destruct w as [|c w]; [done|]. simpl in *.
  apply andb_true_iff in Hall as [Hc _]. unfold nonspace in Hc.
  by destruct (py_isspace c).
Qed.

(** On the words of [split], the [strip] calls and the emptiness filter of
    line 80 change nothing. *)
Lemma title_topics_tokens (words : list string) :
  Forall is_token words → title_topics words = lower <$> take 3 words.
Proof.
  intros Hw. unfold title_topics.
  assert (Forall is_token (take 3 words)) as Ht by by apply Forall_take.
  induction Ht as [|w ws Hw' _ IH]; [done|].
  rewrite filter_cons. cbv beta. rewrite (strip_token w Hw').
  rewrite decide_True by (destruct Hw' as [Hne _]; by destruct w).
  rewrite !fmap_cons, IH. cbv beta. by rewrite (strip_token w Hw').
Qed.

(** ** Summarization adapter *)

Section AdapterFacts.

Variable summarizer : string → Z → Z → option string.

Lemma summarize_short (text : string) :
  word_count text < 30 → summarize summarizer text = text.
Proof.
  unfold summarize, word_count. intros H.
  by apply Z.ltb_lt in H as ->.
Qed.

Lemma summarize_long (text : string) :
  30 ≤ word_count text →
  summarize summarizer text =
    match summarizer text (max_length (word_count text)) (min_length (word_count text)) with
    | Some summary => summary
    | None => prefix 150 text +:+ "..."
    end.
Proof.
  unfold summarize, word_count. intros H.
  by apply Z.ltb_ge in H as ->.
Qed.

End AdapterFacts.

(** C5. [summarize] returns a text of fewer than 30 words unchanged; on a
    longer text it calls the capability with [max_length = min(150, wc - 10)]
    and [min_length = max(30, wc // 4)] and returns the summary; when the
    capability fails it returns the first 150 characters of the text and
    the ellipsis. *)
Theorem summarize_contract (summarizer : string → Z → Z → option string) (text : string) :
  let wc := word_count text in
  (wc < 30 → summarize summarizer text = text) ∧
  (30 ≤ wc → ∀ summary,
     summarizer text (Z.min 150 (wc - 10)) (Z.max 30 (wc `div` 4)) = Some summary →
     summarize summarizer text = summary) ∧
  (30 ≤ wc →
     summarizer text (Z.min 150 (wc - 10)) (Z.max 30 (wc `div` 4)) = None →
     summarize summarizer text = String.substring 0 150 text +:+ "...").
Proof.
  intros wc. split; [apply summarize_short|].
  split; intros Hwc; [intros summary|]; intros Hcap;
    rewrite summarize_long by done;
    unfold max_length, min_length; fold wc; by rewrite Hcap.
Qed.

(** C10. For a text of 30 to 39 words the capability is called with
    [max_length = wc - 10], which is below [min_length = 30]. *)
Theorem summarize_bounds_cross (summarizer : string → Z → Z → option string) (text : string) :
  30 ≤ word_count text ≤ 39 →
  max_length (word_count text) = word_count text - 10 ∧
  min_length (word_count text) = 30 ∧
  max_length (word_count text) < min_length (word_count text) ∧
  summarize summarizer text =
    match summarizer text (word_count text - 10) 30 with
    | Some summary => summary
    | None => String.substring 0 150 text +:+ "..."
    end.
Proof.
  intros [Hlo Hhi].
  assert (min_length (word_count text) = 30) as Hmin.
  { unfold min_length.
    assert (word_count text `div` 4 < 30) by (apply Z.div_lt_upper_bound; lia). lia. }
  assert (max_length (word_count text) = word_count text - 10) as Hmax.
  { unfold max_length. lia. }
  repeat split; [done|done|lia|].
  rewrite summarize_long by done. by rewrite Hmax, Hmin.
Qed.

(** ** Comparative analyzer: the loop over the articles *)

Lemma eqb_decide (s t : string) : String.eqb s t = bool_decide (s = t).
Proof.
  destruct (String.eqb_spec s t); [by rewrite bool_decide_eq_true_2|
                                   by rewrite bool_decide_eq_false_2].
Qed.

Lemma enriched_inv (a : pyval) :
  enriched a = true →
  ∃ d, a = PDict d ∧
       dict_get d "sentiment" (PStr "Neutral") = PStr (sentiment_of a) ∧
       dict_get d "title" (PStr EmptyString) = PStr (title_of a).
Proof.
  destruct a as [| | | |l|d]; simpl; try done.
  destruct (dict_get d "sentiment" (PStr "Neutral")) eqn:Hs; try done.
  destruct (dict_get d "title" (PStr EmptyString)) eqn:Ht; try done.
  intros _. exists d. by rewrite Hs, Ht.
Qed.

Lemma label_count_cons (label : string) (a : pyval) (articles : list pyval) :
  label_count label (a :: articles) =
  (if decide (sentiment_of a = label) then 1 else 0) + label_count label articles.
Proof.
  unfold label_count. rewrite filter_cons.
  destruct (decide (sentiment_of a = label)); simpl; lia.
Qed.

Lemma other_count_cons (a : pyval) (articles : list pyval) :
  other_count (a :: articles) =
  (if decide (sentiment_of a ≠ "Positive" ∧ sentiment_of a ≠ "Negative") then 1 else 0)
  + other_count articles.
Proof.
  unfold other_count. rewrite filter_cons.
  destruct (decide (sentiment_of a ≠ "Positive" ∧ sentiment_of a ≠ "Negative")); simpl; lia.
Qed.

Lemma titles_with_cons (label : string) (a : pyval) (articles : list pyval) :
  titles_with label (a :: articles) =
  (if decide (sentiment_of a = label) then [title_of a] else []) ++ titles_with label articles.
Proof.
  unfold titles_with. rewrite filter_cons.
  by destruct (decide (sentiment_of a = label)).
Qed.

Lemma tally_known (counts : gmap string Z) (p n z : Z) (s : string) :
  tally counts p n z →
  bool_decide (is_Some (counts !! s)) = bool_decide (s ∈ three_labels).
Proof.
  intros (_ & _ & _ & Hdom). apply bool_decide_ext.
  by rewrite <- elem_of_dom, Hdom.
Qed.

(** Incrementing one of the three entries keeps the other two and the
    domain. *)
Ltac tally_after_insert :=
  intros (Hp & Hn & Hz & Hdom); unfold tally;
  rewrite lookup_insert_eq, !lookup_insert_ne by done;
  repeat split; try done;
  rewrite dom_insert_L, Hdom; unfold three_labels; set_solver.

Lemma tally_incr_positive (counts : gmap string Z) (p n z : Z) :
  tally counts p n z → tally (<["Positive" := p + 1]> counts) (p + 1) n z.
Proof. tally_after_insert. Qed.

Lemma tally_incr_negative (counts : gmap string Z) (p n z : Z) :
  tally counts p n z → tally (<["Negative" := n + 1]> counts) p (n + 1) z.
Proof. tally_after_insert. Qed.

Lemma tally_incr_neutral (counts : gmap string Z) (p n z : Z) :
  tally counts p n z → tally (<["Neutral" := z + 1]> counts) p n (z + 1).
Proof. tally_after_insert. Qed.

(** One iteration on an enriched article. *)
Lemma article_step_enriched (st : loop_state) (a : pyval) (p n z : Z) :
  enriched a = true →
  tally (sentiment_counts st) p n z →
  ∃ counts,
    article_step st a =
      Ok (LoopState counts
            (all_topics st ++ (lower <$> take 3 (split (title_of a))))
            (pos_titles st ++ (PStr <$> titles_with "Positive" [a]))
            (neg_titles st ++ (PStr <$> titles_with "Negative" [a]))) ∧
    tally counts (p + label_count "Positive" [a])
                 (n + label_count "Negative" [a])
                 (z + other_count [a]).
Proof.
  intros (d & -> & Hs & Ht)%enriched_inv Htally.
  set (s := sentiment_of (PDict d)) in *. set (t := title_of (PDict d)) in *.
  unfold article_step. cbn [py_get mbind result_bind]. rewrite Hs, Ht.
  cbn [py_in_counts mbind result_bind py_split py_eq_str].
  rewrite (tally_known _ p n z s Htally), (title_topics_tokens _ (split_tokens t)).
  rewrite !label_count_cons, other_count_cons, !titles_with_cons. fold s t.
  change (label_count ?l []) with 0. change (other_count []) with 0.
  change (titles_with ?l []) with (@nil string).
  rewrite !eqb_decide, !Z.add_0_r, !app_nil_r.
  assert (∀ l : list pyval, l ++ (PStr <$> []) = l) as Hnil by apply app_nil_r.
  pose proof Htally as (Hp & Hn & Hz & Hdom).
  unfold counts_incr, counts_item.
  assert (∀ x : string, x ∈ three_labels ↔ x = "Positive" ∨ x = "Negative" ∨ x = "Neutral")
    as Hlab by (intros x; unfold three_labels;
                rewrite !elem_of_union, !elem_of_singleton; tauto).
  destruct (decide (s = "Positive")) as [Hsp|Hnp].
  { rewrite (bool_decide_eq_true_2 (s ∈ _)) by (apply Hlab; auto).
    rewrite (bool_decide_eq_true_2 (s = "Positive")) by done.
    rewrite (decide_False (P := s = "Negative")) by (rewrite Hsp; done).
    rewrite Hsp, Hp, Hnil. eexists. split; [reflexivity|].
    rewrite !decide_False by (intuition congruence). rewrite !Z.add_0_r.
    by apply tally_incr_positive. }
  rewrite (bool_decide_eq_false_2 (s = "Positive")) by done.
  destruct (decide (s = "Negative")) as [Hsn|Hnn].
  { rewrite (bool_decide_eq_true_2 (s ∈ _)) by (apply Hlab; auto).
    rewrite (bool_decide_eq_true_2 (s = "Negative")) by done.
    rewrite Hsn, Hn, Hnil. eexists. split; [reflexivity|].
    rewrite !decide_False by (intuition congruence). rewrite !Z.add_0_r.
    by apply tally_incr_negative. }
  rewrite (bool_decide_eq_false_2 (s = "Negative")) by done.
  rewrite decide_True by done. rewrite !Z.add_0_r, !Hnil.
  destruct (decide (s = "Neutral")) as [Heq|Hnz].
  - rewrite (bool_decide_eq_true_2 (s ∈ _)) by (apply Hlab; auto).
    rewrite Heq, Hz. eexists. split; [reflexivity|]. by apply tally_incr_neutral.
  - rewrite (bool_decide_eq_false_2 (s ∈ _)) by (rewrite Hlab; intuition congruence).
    rewrite Hz. eexists. split; [reflexivity|]. by apply tally_incr_neutral.
Qed.

Lemma label_count_app (label : string) (xs ys : list pyval) :
  label_count label (xs ++ ys) = label_count label xs + label_count label ys.
Proof. unfold label_count. rewrite filter_app, length_app. lia. Qed.

Lemma other_count_app (xs ys : list pyval) :
  other_count (xs ++ ys) = other_count xs + other_count ys.
Proof. unfold other_count. rewrite filter_app, length_app. lia. Qed.

Lemma titles_with_app (label : string) (xs ys : list pyval) :
  titles_with label (xs ++ ys) = titles_with label xs ++ titles_with label ys.
Proof. unfold titles_with. by rewrite filter_app, fmap_app. Qed.

Lemma topic_tokens_cons (a : pyval) (articles : list pyval) :
  topic_tokens (a :: articles) =
  (lower <$> take 3 (split (title_of a))) ++ topic_tokens articles.
Proof. reflexivity. Qed.

(** The whole loop on enriched articles: no iteration raises, and the four
    accumulators grow by what the articles contribute. *)
Lemma for_each_enriched (articles : list pyval) (st : loop_state) (p n z : Z) :
  Forall (λ a, enriched a = true) articles →
  tally (sentiment_counts st) p n z →
  ∃ counts,
    for_each article_step articles st =
      Ok (LoopState counts
            (all_topics st ++ topic_tokens articles)
            (pos_titles st ++ (PStr <$> titles_with "Positive" articles))
            (neg_titles st ++ (PStr <$> titles_with "Negative" articles))) ∧
    tally counts (p + label_count "Positive" articles)
                 (n + label_count "Negative" articles)
                 (z + other_count articles).
Proof.
  intros Hall. revert st p n z.
  induction Hall as [|a articles Ha _ IH]; intros st p n z Htally.
  - exists (sentiment_counts st). simpl.
    change (label_count ?l []) with 0. change (other_count []) with 0.
    change (topic_tokens []) with (@nil string).
    rewrite !app_nil_r, !Z.add_0_r. by destruct st.
  - destruct (article_step_enriched st a p n z Ha Htally) as (c1 & Hstep & Ht1).
    cbn [for_each]. rewrite Hstep. cbn [mbind result_bind].
    match goal with |- context [for_each _ _ ?st1] =>
      destruct (IH st1 _ _ _ Ht1) as (c2 & Hrun & Ht2) end.
    exists c2. rewrite topic_tokens_cons.
    change (a :: articles) with ([a] ++ articles). split.
    + rewrite Hrun. cbn [all_topics pos_titles neg_titles].
      rewrite (titles_with_app "Positive" [a] articles), (titles_with_app "Negative" [a] articles).
      by rewrite !fmap_app, !app_assoc.
    + rewrite (label_count_app "Positive" [a] articles), (label_count_app "Negative" [a] articles),
        (other_count_app [a] articles), !Z.add_assoc. exact Ht2.
Qed.

Lemma expect_strs_fmap (l : list string) : expect_strs (PStr <$> l) = Ok l.
Proof.
  induction l as [|x l IH]; [done|].
  rewrite fmap_cons. cbn [expect_strs mbind result_bind]. by rewrite IH.
Qed.

Lemma py_join_strs (sep : string) (l : list string) :
  py_join sep (PList (PStr <$> l)) = Ok (join sep l).
Proof.
  unfold py_join. cbn [py_iter mbind result_bind]. by rewrite expect_strs_fmap.
Qed.

(** The sentence appended for the titles of one label. *)
Lemma titles_block (heading : string) (coverage : list string) (titles : list string) :
  (if truthy (PList (PStr <$> titles))
   then joined ← py_join ", " (PList (take 2 (PStr <$> titles)));
        Ok (coverage ++ [heading +:+ joined])
   else Ok coverage) =
  Ok (coverage ++ titles_sentence heading titles).
Proof.
  destruct titles as [|t titles].
  - simpl. by rewrite app_nil_r.
  - rewrite <- fmap_take, py_join_strs. reflexivity.
Qed.

Lemma initial_tally : tally initial_counts 0 0 0.
Proof.
  unfold tally, initial_counts. by repeat split.
Qed.

(** What the analyzer returns on a non-empty list of enriched articles. *)
Lemma analyze_articles_enriched (articles : list pyval) :
  articles ≠ [] →
  Forall (λ a, enriched a = true) articles →
  ∃ counts,
    tally counts (label_count "Positive" articles) (label_count "Negative" articles)
                 (other_count articles) ∧
    analyze_articles articles =
      AnalysisReport
        (Report counts
           (title <$> ranked_topics articles)
           ([pretty (label_count "Positive" articles) +:+ " articles highlight positive developments";
             pretty (label_count "Negative" articles) +:+ " articles discuss challenges/risks"]
              ++ titles_sentence "Positive articles include: " (titles_with "Positive" articles)
              ++ titles_sentence "Negative articles include: " (titles_with "Negative" articles))
           (if label_count "Negative" articles <? label_count "Positive" articles
            then positive_sentence
            else if label_count "Positive" articles <? label_count "Negative" articles
                 then negative_sentence
                 else balanced_sentence)).
Proof.
  intros Hne Hall.
  destruct (for_each_enriched articles (LoopState initial_counts [] [] []) 0 0 0 Hall initial_tally)
    as (counts & Hrun & Htally).
  rewrite !Z.add_0_l in Htally. cbn [all_topics pos_titles neg_titles] in Hrun.
  rewrite !app_nil_l in Hrun.
  exists counts. split; [done|].
  destruct articles as [|a0 rest]; [done|]. unfold analyze_articles.
  set (articles := a0 :: rest) in *.
  unfold analyze_body. rewrite Hrun.
  destruct Htally as (Hp & Hn & _).
  cbn [mbind result_bind sentiment_counts all_topics pos_titles neg_titles].
  unfold counts_item. rewrite Hp, Hn.
  cbn [mbind result_bind].
  rewrite (titles_block "Positive articles include: ").
  cbn [mbind result_bind].
  rewrite (titles_block "Negative articles include: ").
  cbn [mbind result_bind try_except].
  unfold ranked_topics. rewrite <- list_fmap_compose, <- app_assoc. reflexivity.
Qed.

(** ** The frequency table of the topics *)

Lemma dict_lookup_keys {V} (d : list (string * V)) (k : string) :
  dict_lookup d k = None ↔ k ∉ d.*1.
Proof.
  induction d as [|[k' v] d IH]; simpl.
  - split; [intros _; apply not_elem_of_nil|done].
  - rewrite eqb_decide, not_elem_of_cons. case_bool_decide as Hk.
    + split; [done|]. intros [Hne _]. by destruct Hne.
    + rewrite IH. split; [by split|by intros [_ ?]].
Qed.

Lemma dict_set_keys (d : list (string * Z)) (k : string) (v : Z) :
  (dict_set d k v).*1 = if decide (k ∈ d.*1) then d.*1 else d.*1 ++ [k].
Proof.
  induction d as [|[k' v'] d IH]; [done|].
  cbn [dict_set]. rewrite eqb_decide, !fmap_cons. cbn [fst].
  case_bool_decide as Hk.
  - rewrite decide_True; [done|]. rewrite Hk. by left.
  - rewrite fmap_cons, IH. cbn [fst]. destruct (decide (k ∈ d.*1)) as [Hin|Hout].
    + rewrite decide_True; [done|]. by right.
    + rewrite decide_False; [done|]. rewrite not_elem_of_cons. by split.
Qed.

Lemma dict_lookup_set (d : list (string * Z)) (k k' : string) (v : Z) :
  dict_lookup (dict_set d k v) k' = if decide (k = k') then Some v else dict_lookup d k'.
Proof.
  induction d as [|[k0 v0] d IH]; cbn [dict_set dict_lookup].
  - rewrite eqb_decide. by repeat (case_bool_decide || case_decide).
  - rewrite (eqb_decide k0 k). case_bool_decide as Hk; cbn [dict_lookup].
    + rewrite eqb_decide, Hk. by repeat (case_bool_decide || case_decide).
    + rewrite IH, eqb_decide. repeat (case_bool_decide || case_decide); congruence.
Qed.

Lemma dict_lookup_elem {V} (d : list (string * V)) (k : string) (v : V) :
  NoDup d.*1 → (k, v) ∈ d → dict_lookup d k = Some v.
Proof.
  induction d as [|[k0 v0] d IH]; simpl; [by intros _ ?%elem_of_nil|].
  intros [Hk0 Hnd]%NoDup_cons [Heq|Hin]%elem_of_cons.
  - injection Heq as -> ->. by rewrite String.eqb_refl.
  - rewrite eqb_decide, bool_decide_eq_false_2; [by apply IH|].
    intros ->. apply Hk0. apply list_elem_of_fmap. by exists (k, v).
Qed.

Lemma occurrences_snoc (k t : string) (l : list string) :
  occurrences k (l ++ [t]) = occurrences k l + (if decide (t = k) then 1 else 0).
Proof.
  unfold occurrences. rewrite filter_app, length_app, filter_cons, filter_nil.
  destruct (decide (t = k)); simpl; lia.
Qed.

Lemma occurrences_pos (k : string) (l : list string) : k ∈ l → 0 < occurrences k l.
Proof.
  intros Hin. unfold occurrences.
  assert (k ∈ filter (λ x, x = k) l) as Hf by (by apply list_elem_of_filter).
  destruct (filter (λ x, x = k) l); [by apply elem_of_nil in Hf|simpl; lia].
Qed.

Lemma occurrences_zero (k : string) (l : list string) : k ∉ l → occurrences k l = 0.
Proof.
  intros Hout. unfold occurrences.
  destruct (filter (λ x, x = k) l) as [|y ys] eqn:Hf; [done|].
  assert (y ∈ filter (λ x, x = k) l) as [-> Hin]%list_elem_of_filter; [|done].
  rewrite Hf. by left.
Qed.

Lemma first_seen_lt (a : string) (l : list string) :
  a ∈ l → (first_seen a l < length l)%nat.
Proof.
  induction l as [|x l IH]; simpl; [by intros ?%elem_of_nil|].
  rewrite eqb_decide. intros Hin. destruct (decide (x = a)) as [->|Hne].
  - rewrite bool_decide_eq_true_2 by done. lia.
  - rewrite bool_decide_eq_false_2 by done.
    apply elem_of_cons in Hin as [->|Hin]; [done|]. specialize (IH Hin). lia.
Qed.

Lemma first_seen_app_l (a : string) (l l' : list string) :
  a ∈ l → first_seen a (l ++ l') = first_seen a l.
Proof.
  induction l as [|x l IH]; simpl; [by intros ?%elem_of_nil|].
  rewrite eqb_decide. intros Hin. destruct (decide (x = a)) as [->|Hne].
  - by rewrite bool_decide_eq_true_2.
  - rewrite bool_decide_eq_false_2 by done.
    apply elem_of_cons in Hin as [->|Hin]; [done|]. by rewrite IH.
Qed.

Lemma first_seen_app_r (a : string) (l l' : list string) :
  a ∉ l → first_seen a (l ++ l') = (length l + first_seen a l')%nat.
Proof.
  induction l as [|x l IH]; simpl; [done|].
  rewrite eqb_decide. intros [Hne Hout]%not_elem_of_cons.
  rewrite bool_decide_eq_false_2 by done. by rewrite IH.
Qed.

Section SortedFacts.

Context {A B : Type}.

Lemma StronglySorted_weaken (R R' : relation A) (l : list A) :
  StronglySorted R l →
  (∀ a b, a ∈ l → b ∈ l → R a b → R' a b) →
  StronglySorted R' l.
Proof.
  induction 1 as [|x l Hss IH Hfa]; intros Himp; constructor.
  - apply IH. intros a b Ha Hb. apply Himp; by right.
  - rewrite Forall_forall in *. intros y Hy. apply Himp; [by left|by right|by apply Hfa].
Qed.

Lemma StronglySorted_fmap_2 (R : relation A) (R' : relation B) (f : A → B) (l : list A) :
  StronglySorted R l →
  (∀ a b, a ∈ l → b ∈ l → R a b → R' (f a) (f b)) →
  StronglySorted R' (f <$> l).
Proof.
  induction 1 as [|x l Hss IH Hfa]; intros Himp; simpl; constructor.
  - apply IH. intros a b Ha Hb. apply Himp; by right.
  - rewrite Forall_fmap, Forall_forall in *. intros y Hy.
    apply Himp; [by left|by right|by apply Hfa].
Qed.

Lemma StronglySorted_fmap_1 (R : relation B) (f : A → B) (l : list A) :
  StronglySorted R (f <$> l) → StronglySorted (λ a b, R (f a) (f b)) l.
Proof.
  induction l as [|x l IH]; [constructor|].
  rewrite fmap_cons. intros [Hx Hs]%StronglySorted_cons.
  constructor; [by apply IH|]. by rewrite Forall_fmap in Hx.
Qed.

Lemma StronglySorted_lookup (R : relation A) (l : list A) (i j : nat) (a b : A) :
  StronglySorted R l → l !! i = Some a → l !! j = Some b → (i < j)%nat → R a b.
Proof.
  intros Hss. revert i j. induction Hss as [|x l Hss IH Hfa]; intros i j Hi Hj Hlt.
  - by rewrite lookup_nil in Hi.
  - destruct i as [|i], j as [|j]; try lia; simpl in *.
    + injection Hi as ->. rewrite Forall_forall in Hfa. apply Hfa.
      by apply list_elem_of_lookup_2 in Hj.
    + apply (IH i j); [done|done|lia].
Qed.

Lemma StronglySorted_NoDup (R : relation A) (l : list A) :
  (∀ a, ¬ R a a) → StronglySorted R l → NoDup l.
Proof.
  intros Hirr. induction 1 as [|x l Hss IH Hfa]; constructor; [|done].
  intros Hin. rewrite Forall_forall in Hfa. by apply (Hirr x), Hfa.
Qed.

End SortedFacts.

Lemma counts_topics_keys (tc : list (string * Z)) (l : list string) (k : string) :
  counts_topics tc l → k ∈ tc.*1 ↔ k ∈ l.
Proof.
  intros [Hlk _]. specialize (Hlk k).
  destruct (decide (k ∈ l)) as [Hin|Hout].
  - split; [done|]. intros _. destruct (decide (k ∈ tc.*1)) as [|Hno]; [done|].
    apply dict_lookup_keys in Hno. congruence.
  - apply dict_lookup_keys in Hlk. split; intros ?; contradiction.
Qed.

Lemma count_topic_step (tc : list (string * Z)) (l : list string) (t : string) :
  counts_topics tc l → counts_topics (count_topic tc t) (l ++ [t]).
Proof.
  intros Hinv. pose proof Hinv as [Hlk Hss]. split.
  - intros k. unfold count_topic. rewrite dict_lookup_set, occurrences_snoc.
    destruct (decide (t = k)) as [->|Hne].
    + rewrite decide_True by (apply elem_of_app; right; by left).
      unfold dict_get. rewrite Hlk. destruct (decide (k ∈ l)); simpl; [done|].
      by rewrite occurrences_zero.
    + rewrite Hlk, Z.add_0_r. destruct (decide (k ∈ l)) as [Hin|Hout].
      * rewrite decide_True; [done|]. apply elem_of_app. by left.
      * rewrite decide_False; [done|]. rewrite elem_of_app, list_elem_of_singleton.
        intros [?|?]; [contradiction|congruence].
  - unfold count_topic. rewrite dict_set_keys.
    assert (StronglySorted (λ a b, (first_seen a (l ++ [t]) < first_seen b (l ++ [t]))%nat) tc.*1)
      as Hold.
    { apply (StronglySorted_weaken _ _ _ Hss). intros a b Ha Hb.
      apply (counts_topics_keys _ _ _ Hinv) in Ha, Hb.
      by rewrite !first_seen_app_l. }
    destruct (decide (t ∈ tc.*1)) as [Hin|Hout]; [done|].
    apply StronglySorted_app_2; [|done|repeat constructor].
    intros a b Ha ->%list_elem_of_singleton.
    apply (counts_topics_keys _ _ _ Hinv) in Ha.
    rewrite first_seen_app_l by done.
    rewrite first_seen_app_r by (by rewrite <- (counts_topics_keys _ _ _ Hinv)).
    pose proof (first_seen_lt a l Ha). lia.
Qed.

Lemma count_topics_fold (rest : list string) (tc : list (string * Z)) (l : list string) :
  counts_topics tc l → counts_topics (fold_left count_topic rest tc) (l ++ rest).
Proof.
  revert tc l. induction rest as [|t rest IH]; intros tc l Hinv; simpl.
  - by rewrite app_nil_r.
  - change (t :: rest) with ([t] ++ rest). rewrite (assoc_L (++) l [t] rest).
    apply IH. by apply count_topic_step.
Qed.

Lemma topic_counter_counts (l : list string) :
  counts_topics (fold_left count_topic l []) l.
Proof.
  apply (count_topics_fold l [] []). split; [done|constructor].
Qed.

(** ** The stable descending sort *)

Section SortDesc.

(** [before a b]: the item [a] stands before [b] in the list that is sorted. *)
Variable before : relation (string * Z).

#[local] Abbreviation sort_order := (sort_order before).

Lemma insert_desc_perm (x : string * Z) (l : list (string * Z)) :
  insert_desc x l ≡ₚ x :: l.
Proof.
  induction l as [|y l IH]; simpl; [done|].
  destruct (x.2 <? y.2); [|done]. rewrite IH. apply Permutation_swap.
Qed.

Lemma sorted_desc_perm (l : list (string * Z)) : sorted_desc l ≡ₚ l.
Proof.
  induction l as [|x l IH]; simpl; [done|]. by rewrite insert_desc_perm, IH.
Qed.

Lemma insert_desc_sorted (x : string * Z) (l : list (string * Z)) :
  StronglySorted sort_order l →
  Forall (λ y, ¬ x.2 < y.2 → sort_order x y) l →
  StronglySorted sort_order (insert_desc x l).
Proof.
  induction 1 as [|y l Hss IH Hy]; intros Hx; simpl; [by repeat constructor|].
  apply Forall_cons in Hx as [Hxy Hxl].
  destruct (Z.ltb_spec (x.2) (y.2)) as [Hlt|Hge].
  - constructor; [by apply IH|].
    rewrite insert_desc_perm. constructor; [by left|done].
  - constructor; [by constructor|].
    constructor; [apply Hxy; lia|].
    rewrite Forall_forall in *. intros z Hz. apply Hxl; [done|].
    destruct (Hy z Hz) as [?|[? _]]; lia.
Qed.

Lemma sorted_desc_sorted (items : list (string * Z)) :
  StronglySorted before items → StronglySorted sort_order (sorted_desc items).
Proof.
  induction 1 as [|x items Hss IH Hx]; simpl; [constructor|].
  apply insert_desc_sorted; [done|].
  rewrite sorted_desc_perm. rewrite Forall_forall in *. intros y Hy Hge.
  destruct (decide (y.2 < x.2)) as [Hlt|Hnlt]; [by left|].
  right. split; [lia|by apply Hx].
Qed.

End SortDesc.

(** The ranked topics of a list of topics [l]: sorted by [ranks_before],
    drawn from [l], without repetition, three at most, and leaving out only
    topics that rank after all of them. *)
Lemma ranked_sorted (l : list string) :
  let ranked := (take 3 (sorted_desc (fold_left count_topic l []))).*1 in
  StronglySorted (ranks_before l) ranked ∧
  (∀ t, t ∈ ranked → t ∈ l) ∧
  (∀ a c, a ∈ ranked → c ∈ l → c ∉ ranked → ranks_before l a c).
Proof.
  set (tc := fold_left count_topic l []).
  pose proof (topic_counter_counts l) as Hinv. fold tc in Hinv.
  pose proof Hinv as [Hlk Hss].
  set (before := λ a b : string * Z, (first_seen a.1 l < first_seen b.1 l)%nat).
  assert (NoDup tc.*1) as Hnd.
  { apply (StronglySorted_NoDup (λ a b, (first_seen a l < first_seen b l)%nat));
      [intros a; apply Nat.lt_irrefl|done]. }
  assert (∀ kv, kv ∈ sorted_desc tc → kv.1 ∈ l ∧ kv.2 = occurrences kv.1 l) as Hitem.
  { intros [k v]. rewrite sorted_desc_perm. intros Hin.
    pose proof (dict_lookup_elem tc k v Hnd Hin) as Hk. rewrite Hlk in Hk.
    simpl. destruct (decide (k ∈ l)); [|done]. split; [done|congruence]. }
  assert (StronglySorted (ranks_before l) (sorted_desc tc).*1) as Hall.
  { apply (StronglySorted_fmap_2 (sort_order before)).
    - apply sorted_desc_sorted. by apply StronglySorted_fmap_1 in Hss.
    - intros a b Ha Hb. destruct (Hitem a Ha) as [_ Hca], (Hitem b Hb) as [_ Hcb].
      unfold sort_order, ranks_before, before. rewrite Hca, Hcb. tauto. }
  rewrite <- (take_drop 3 (sorted_desc tc)), fmap_app in Hall.
  apply StronglySorted_app in Hall as (Hcross & Htake & _).
  intros ranked. subst ranked. split; [done|]. split.
  - intros t (kv & -> & Hkv)%list_elem_of_fmap.
    apply Hitem. by apply (subseteq_take 3).
  - intros a c Ha Hc Hnc. apply Hcross; [done|].
    apply (counts_topics_keys _ _ _ Hinv) in Hc.
    apply list_elem_of_fmap in Hc as (kv & -> & Hkv).
    assert (kv ∈ take 3 (sorted_desc tc) ++ drop 3 (sorted_desc tc)) as Hsplit.
    { rewrite take_drop. by rewrite sorted_desc_perm. }
    apply elem_of_app in Hsplit as [Hl|Hr].
    + destruct Hnc. apply list_elem_of_fmap. by exists kv.
    + apply list_elem_of_fmap. by exists kv.
Qed.

Lemma ranks_before_irrefl (l : list string) (a : string) : ¬ ranks_before l a a.
Proof. unfold ranks_before. lia. Qed.

(** There are as many ranked topics as there are distinct topics, up to
    three. *)
Lemma ranked_topics_length (articles : list pyval) :
  length (ranked_topics articles) =
  (3 `min` size (list_to_set (topic_tokens articles) : gset string))%nat.
Proof.
  unfold ranked_topics. set (l := topic_tokens articles).
  pose proof (topic_counter_counts l) as Hinv. pose proof Hinv as [_ Hss].
  set (tc := fold_left count_topic l []) in *.
  rewrite length_fmap, length_take, (Permutation_length (sorted_desc_perm tc)).
  assert (NoDup tc.*1) as Hnd.
  { apply (StronglySorted_NoDup (λ a b, (first_seen a l < first_seen b l)%nat));
      [intros a; apply Nat.lt_irrefl|done]. }
  assert (list_to_set l = (list_to_set tc.*1 : gset string)) as ->.
  { apply set_eq. intros k. rewrite !elem_of_list_to_set.
    by rewrite (counts_topics_keys tc l k Hinv). }
  rewrite (size_list_to_set _ Hnd), length_fmap. lia.
Qed.

(** ** The claims about the comparative analyzer *)


Lemma sentences_distinct :
  positive_sentence ≠ negative_sentence ∧
  positive_sentence ≠ balanced_sentence ∧
  negative_sentence ≠ balanced_sentence.
Proof. by repeat split. Qed.

(** C1. On a non-empty list of enriched articles the verdict is the
    "mostly positive" sentence exactly when the Positive count exceeds the
    Negative count, the "mostly negative" sentence exactly when the Negative
    count exceeds the Positive count, and the balanced sentence exactly when
    the two counts are equal; the counts are those of the distribution, the
    numbers of articles labelled Positive and Negative. *)
Theorem final_sentiment_majority (articles : list pyval) :
  articles ≠ [] →
  Forall (λ a, enriched a = true) articles →
  ∃ r p n,
    analyze_articles articles = AnalysisReport r ∧
    sentiment_distribution r !! "Positive" = Some p ∧
    sentiment_distribution r !! "Negative" = Some n ∧
    p = label_count "Positive" articles ∧
    n = label_count "Negative" articles ∧
    (final_sentiment_analysis r = positive_sentence ↔ n < p) ∧
    (final_sentiment_analysis r = negative_sentence ↔ p < n) ∧
    (final_sentiment_analysis r = balanced_sentence ↔ p = n).
Proof.
  intros Hne Hall.
  destruct (analyze_articles_enriched articles Hne Hall) as (counts & (Hp & Hn & _) & ->).
  eexists _, _, _. split; [reflexivity|]. cbn [sentiment_distribution final_sentiment_analysis].
  split; [exact Hp|]. split; [exact Hn|]. split; [reflexivity|]. split; [reflexivity|].
  destruct sentences_distinct as (Hpn & Hpb & Hnb).
  destruct (Z.ltb_spec (label_count "Negative" articles) (label_count "Positive" articles));
    [|destruct (Z.ltb_spec (label_count "Positive" articles) (label_count "Negative" articles))].
  - repeat split; intros; try done; try lia; congruence.
  - repeat split; intros; try done; try lia; congruence.
  - repeat split; intros; try done; try lia; congruence.
Qed.

Lemma counts_partition (articles : list pyval) :
  label_count "Positive" articles + label_count "Negative" articles + other_count articles
  = Z.of_nat (length articles).
Proof.
  induction articles as [|a articles IH]; [done|].
  rewrite !label_count_cons, other_count_cons. cbn [length].
  repeat case_decide; try lia; intuition congruence.
Qed.

Lemma unrecognized_count_cons (a : pyval) (articles : list pyval) :
  unrecognized_count (a :: articles) =
  (if decide (sentiment_of a ∉ three_labels) then 1 else 0) + unrecognized_count articles.
Proof.
  unfold unrecognized_count. rewrite filter_cons.
  destruct (decide (sentiment_of a ∉ three_labels)); simpl; lia.
Qed.

Lemma other_count_split (articles : list pyval) :
  other_count articles = label_count "Neutral" articles + unrecognized_count articles.
Proof.
  induction articles as [|a articles IH]; [done|].
  rewrite label_count_cons, other_count_cons, unrecognized_count_cons, IH.
  assert (sentiment_of a ∈ three_labels ↔
          sentiment_of a = "Positive" ∨ sentiment_of a = "Negative" ∨ sentiment_of a = "Neutral")
    as Hlab by (unfold three_labels; rewrite !elem_of_union, !elem_of_singleton; tauto).
  repeat case_decide; try lia; exfalso; rewrite ?Hlab in *; intuition congruence.
Qed.

(** C2. On a non-empty list of enriched articles the distribution has
    exactly the keys Positive, Negative and Neutral; its values are
    non-negative and sum to the number of articles; Positive and Negative
    count the articles with that label and Neutral counts all the others,
    those labelled Neutral and those with a label outside the three. *)
Theorem sentiment_distribution_total (articles : list pyval) :
  articles ≠ [] →
  Forall (λ a, enriched a = true) articles →
  ∃ r p n z,
    analyze_articles articles = AnalysisReport r ∧
    dom (sentiment_distribution r) = {["Positive"; "Negative"; "Neutral"]} ∧
    sentiment_distribution r !! "Positive" = Some p ∧
    sentiment_distribution r !! "Negative" = Some n ∧
    sentiment_distribution r !! "Neutral" = Some z ∧
    0 ≤ p ∧ 0 ≤ n ∧ 0 ≤ z ∧
    p + n + z = Z.of_nat (length articles) ∧
    p = label_count "Positive" articles ∧
    n = label_count "Negative" articles ∧
    z = label_count "Neutral" articles + unrecognized_count articles.
Proof.
  intros Hne Hall.
  destruct (analyze_articles_enriched articles Hne Hall)
    as (counts & (Hp & Hn & Hz & Hdom) & ->).
  eexists _, _, _, _. split; [reflexivity|]. cbn [sentiment_distribution].
  split; [exact Hdom|]. split; [exact Hp|]. split; [exact Hn|]. split; [exact Hz|].
  pose proof (counts_partition articles). pose proof (other_count_split articles).
  unfold label_count, other_count, unrecognized_count in *. repeat split; lia.
Qed.

Lemma titles_with_empty (label : string) (articles : list pyval) :
  titles_with label articles = [] ↔ label_count label articles = 0.
Proof.
  unfold titles_with, label_count.
  destruct (filter (λ a, sentiment_of a = label) articles); simpl; [done|].
  split; [done|lia].
Qed.

(** C8. On a non-empty list of enriched articles the coverage differences
    are, in this order: the sentence with the Positive count, the sentence
    with the Negative count, then, exactly when some article is Positive,
    the sentence listing the first two Positive titles in input order, then
    likewise for Negative. *)
Theorem coverage_differences_layout (articles : list pyval) :
  articles ≠ [] →
  Forall (λ a, enriched a = true) articles →
  ∃ r,
    analyze_articles articles = AnalysisReport r ∧
    let p := label_count "Positive" articles in
    let n := label_count "Negative" articles in
    coverage_differences r =
      [pretty p +:+ " articles highlight positive developments";
       pretty n +:+ " articles discuss challenges/risks"]
      ++ (if decide (0 < p)
          then ["Positive articles include: " +:+
                join ", " (take 2 (titles_with "Positive" articles))]
          else [])
      ++ (if decide (0 < n)
          then ["Negative articles include: " +:+
                join ", " (take 2 (titles_with "Negative" articles))]
          else []).
Proof.
  intros Hne Hall.
  destruct (analyze_articles_enriched articles Hne Hall) as (counts & _ & ->).
  eexists. split; [reflexivity|]. cbn [coverage_differences].
  assert (∀ heading label,
            titles_sentence heading (titles_with label articles) =
            if decide (0 < label_count label articles)
            then [heading +:+ join ", " (take 2 (titles_with label articles))] else [])
    as Hsentence.
  { intros heading label. pose proof (titles_with_empty label articles) as Hempty.
    assert (0 ≤ label_count label articles) by (unfold label_count; lia).
    destruct (titles_with label articles) as [|t ts]; case_decide; try done.
    - assert (label_count label articles = 0) by by apply Hempty. lia.
    - assert (label_count label articles = 0) as Hzero by lia. by apply Hempty in Hzero. }
  by rewrite !Hsentence.
Qed.

(** ** Narrative synthesizer *)

Section NarrationFacts.

Variable MEDIA_ROOT : string.
Variable makedirs : string → bool.
Variable translate : string → option string.
Variable gtts_save : string → string → bool.
Variable path_exists : string → bool.
Variable py_hash : string → Z.
Variable py_repr : pyval → string.

Lemma dict_get_fmap {V W} (d : list (string * V)) (k : string) (dflt : V)
    (g : W → V) (o : option W) (w : W) :
  dict_lookup d k = g <$> o → dflt = g w → dict_get d k dflt = g (default w o).
Proof. unfold dict_get. intros -> ->. by destruct o. Qed.

(** The loop of lines 158-160 numbers the items from its start value on,
    in order. *)
Lemma insights_loop (items : list string) (i : Z) (acc : list string) :
  fold_left (λ insights '(i, insight),
               insights ++ [pretty i +:+ ". " +:+ py_str py_repr insight])
            (enumerate i (PStr <$> items)) acc =
  acc ++ imap (λ k item, pretty (Z.of_nat k + i) +:+ ". " +:+ item) items.
Proof.
  revert i acc. induction items as [|x items IH]; intros i acc.
  - by rewrite app_nil_r.
  - rewrite fmap_cons. cbn [enumerate fold_left imap]. rewrite IH, <- app_assoc.
    f_equal. cbn [app]. f_equal. apply imap_ext. intros k y _. simpl.
    do 2 f_equal. lia.
Qed.

Lemma truthy_list_strs (l : list string) :
  truthy (PList (PStr <$> l)) = match l with [] => false | _ => true end.
Proof. by destruct l. Qed.

Lemma build_summary_text_fields (company_name : string) (d : list (string * pyval))
    (f : analysis_fields) :
  has_fields d f →
  build_summary_text py_repr company_name (PDict d) = Ok (script_of company_name f).
Proof.
  intros (Hv & Hd & Hp & Hn & Hz & Ht & Hi).
  unfold build_summary_text. cbn [py_get mbind result_bind].
  rewrite (dict_get_fmap d _ _ PStr (f_verdict f) no_analysis_placeholder Hv eq_refl).
  rewrite (dict_get_fmap d _ _ PDict (f_distribution f) [] Hd eq_refl).
  rewrite (dict_get_fmap d _ (PList []) (λ l, PList (PStr <$> l)) (f_topics f) [] Ht eq_refl).
  rewrite (dict_get_fmap d _ (PList []) (λ l, PList (PStr <$> l)) (f_insights f) [] Hi eq_refl).
  cbn [py_get mbind result_bind].
  rewrite (dict_get_fmap _ _ _ PInt (f_positive f) 0 Hp eq_refl).
  rewrite (dict_get_fmap _ _ _ PInt (f_negative f) 0 Hn eq_refl).
  rewrite (dict_get_fmap _ _ _ PInt (f_neutral f) 0 Hz eq_refl).
  rewrite !truthy_list_strs. cbn [py_str py_iter].
  unfold script_of, script_spec, company_line, counts_line, topics_line, insights_line, numbered.
  destruct (default [] (f_topics f)) as [|t ts] eqn:Htopics;
    destruct (default [] (f_insights f)) as [|x xs] eqn:Hitems;
    cbn [mbind result_bind];
    rewrite ?py_join_strs, ?insights_loop; cbn [mbind result_bind app];
    f_equal; rewrite ?app_assoc_s, ?app_empty_r; try reflexivity.
  all: do 2 f_equal; apply imap_ext; intros k y _; simpl; do 2 f_equal; lia.
Qed.

(** A run on a well-typed mapping: the first events, and the name
    returned when a name is returned. *)
Lemma generate_tts_fields (company_name : string) (d : list (string * pyval))
    (f : analysis_fields) :
  d ≠ [] →
  has_fields d f →
  let run := generate_tts MEDIA_ROOT makedirs translate gtts_save path_exists
                          py_hash py_repr company_name (PDict d) in
  (makedirs MEDIA_ROOT = true →
   ∃ rest, run.1 = Makedirs MEDIA_ROOT
                   :: LogInfo ("Generated summary text: " +:+ script_of company_name f)
                   :: Translate (script_of company_name f) :: rest) ∧
  (∀ filename, run.2 = Some filename →
               filename = audio_filename py_hash company_name (script_of company_name f)).
Proof.
  intros Hne Hf run.
  pose proof (build_summary_text_fields company_name d f Hf) as Hscript.
  assert (truthy (PDict d) = true) as Htruthy by (by destruct d).
  subst run. unfold generate_tts.
  rewrite Htruthy. cbn [negb orb isinstance_dict]. rewrite Hscript.
  unfold traced_try, emit, lift. cbn [mbind traced_bind mret traced_ret app].
  destruct (makedirs MEDIA_ROOT); cbn [app];
    [|split; [done|by intros filename]].
  destruct (translate _) as [translated|]; cbn [app];
    [|split; [by eexists|by intros filename]].
  destruct (gtts_save translated _); cbn [app];
    [|split; [by eexists|by intros filename]].
  destruct (path_exists _); cbn [app fst snd].
  - split; [by eexists|]. by intros filename [= <-].
  - split; [by eexists|by intros filename].
Qed.

End NarrationFacts.

(** C6. For a well-typed analysis mapping the script is the company line,
    the counts line with the counts of the input distribution, the topics
    line when there are topics, and the insights line when there are
    insights, numbered from 1 in input order; a missing count is 0, a
    missing list is empty, and a missing verdict is the placeholder. This is
    the text [generate_tts] logs and hands to the translator, and the text
    whose hash names the audio file. *)
Theorem script_layout (MEDIA_ROOT : string) (makedirs : string → bool)
    (translate : string → option string) (gtts_save : string → string → bool)
    (path_exists : string → bool) (py_hash : string → Z) (py_repr : pyval → string)
    (company_name : string) (d : list (string * pyval)) (f : analysis_fields) :
  d ≠ [] →
  has_fields d f →
  let script :=
    company_line company_name (default no_analysis_placeholder (f_verdict f))
    +:+ counts_line (default 0 (f_positive f)) (default 0 (f_negative f))
                    (default 0 (f_neutral f))
    +:+ topics_line (default [] (f_topics f))
    +:+ insights_line (default [] (f_insights f)) in
  let run := generate_tts MEDIA_ROOT makedirs translate gtts_save path_exists
                          py_hash py_repr company_name (PDict d) in
  build_summary_text py_repr company_name (PDict d) = Ok script ∧
  (makedirs MEDIA_ROOT = true →
   ∃ rest, run.1 = Makedirs MEDIA_ROOT
                   :: LogInfo ("Generated summary text: " +:+ script)
                   :: Translate script :: rest) ∧
  (∀ filename, run.2 = Some filename →
               filename = audio_filename py_hash company_name script).
Proof.
  intros Hne Hf script run.
  split; [by apply build_summary_text_fields|].
  apply (generate_tts_fields MEDIA_ROOT makedirs translate gtts_save path_exists
           py_hash py_repr company_name d f Hne Hf).
Qed.

(** C7. A payload that is null, an empty object or not an object makes
    [generate_tts] log the validation error and return [None]; nothing else
    happens: no directory, no script, no translation, no file name. *)
Theorem generate_tts_rejects (MEDIA_ROOT : string) (makedirs : string → bool)
    (translate : string → option string) (gtts_save : string → string → bool)
    (path_exists : string → bool) (py_hash : string → Z) (py_repr : pyval → string)
    (company_name : string) (analysis_data : pyval) :
  invalid_payload analysis_data →
  generate_tts MEDIA_ROOT makedirs translate gtts_save path_exists py_hash py_repr
               company_name analysis_data
  = ([LogError "Invalid analysis_data provided to generate_tts()"], None).
Proof.
  intros [->|[->|Hnd]]; [done|done|].
  unfold generate_tts. rewrite Hnd. by rewrite orb_true_r.
Qed.

(** At the [tts] view a falsy payload is answered with status 400 before
    [generate_tts] is called, and a truthy payload that is not an object
    with status 500 after [generate_tts] has rejected it. *)
Lemma tts_invalid_payload (MEDIA_ROOT : string) (makedirs : string → bool)
    (translate : string → option string) (gtts_save : string → string → bool)
    (path_exists : string → bool) (py_hash : string → Z) (py_repr : pyval → string)
    (company_name : string) (analysis_data : pyval) :
  nonempty (strip company_name) = true →
  invalid_payload analysis_data →
  tts MEDIA_ROOT makedirs translate gtts_save path_exists py_hash py_repr
      company_name analysis_data =
  if truthy analysis_data
  then ([LogError "Invalid analysis_data provided to generate_tts()"],
        Response500 "TTS generation failed")
  else ([], Response400 "Analysis data is required").
Proof.
  intros Hname Hbad. unfold tts. rewrite Hname. cbn [negb].
  destruct (truthy analysis_data) eqn:Htruthy; cbn [negb]; [|done].
  destruct Hbad as [->|[->|Hnd]]; [done|done|].
  unfold generate_tts. rewrite Htruthy, Hnd. by cbn.
Qed.

(** ** Audio file name *)

Lemma app_length_s (s t : string) :
  String.length (s +:+ t) = (String.length s + String.length t)%nat.
Proof. induction s as [|c s IH]; [done|]. rewrite app_cons. simpl. by rewrite IH. Qed.

Lemma app_inj_r (s1 s2 t : string) : s1 +:+ t = s2 +:+ t → s1 = s2.
Proof.
  revert s2. induction s1 as [|c s1 IH]; intros [|c2 s2] Heq; [done| | |].
  - apply (f_equal String.length) in Heq.
    rewrite app_empty_l, app_cons in Heq. simpl in Heq. rewrite app_length_s in Heq. lia.
  - apply (f_equal String.length) in Heq.
    rewrite app_empty_l, app_cons in Heq. simpl in Heq. rewrite app_length_s in Heq. lia.
  - rewrite !app_cons in Heq. injection Heq as -> Heq. f_equal. by apply IH.
Qed.

Lemma audio_filename_hash (h1 h2 : string → Z) (company_name summary_text : string) :
  audio_filename h1 company_name summary_text = audio_filename h2 company_name summary_text →
  h1 summary_text = h2 summary_text.
Proof.
  unfold audio_filename. intros Heq.
  do 2 apply String.app_inj in Heq. apply app_inj_r in Heq.
  by apply (inj pretty) in Heq.
Qed.

(** C4. The name of the audio file is built from [hash(summary_text)] of
    the running interpreter: two runs on the same company and analysis in
    which everything succeeds, in processes whose string hash differs on the
    script, return different file names. *)
Theorem filename_follows_process_hash (MEDIA_ROOT : string) (makedirs : string → bool)
    (translate : string → option string) (gtts_save : string → string → bool)
    (path_exists : string → bool) (py_repr : pyval → string)
    (hash1 hash2 : string → Z)
    (company_name : string) (d : list (string * pyval)) (f : analysis_fields) :
  d ≠ [] →
  has_fields d f →
  hash1 (script_of company_name f) ≠ hash2 (script_of company_name f) →
  ∀ file1 file2,
    (generate_tts MEDIA_ROOT makedirs translate gtts_save path_exists hash1 py_repr
                  company_name (PDict d)).2 = Some file1 →
    (generate_tts MEDIA_ROOT makedirs translate gtts_save path_exists hash2 py_repr
                  company_name (PDict d)).2 = Some file2 →
    file1 ≠ file2.
Proof.
  intros Hne Hf Hhash file1 file2 Hrun1 Hrun2.
  destruct (generate_tts_fields MEDIA_ROOT makedirs translate gtts_save path_exists hash1
              py_repr company_name d f Hne Hf) as (_ & Hname1).
  destruct (generate_tts_fields MEDIA_ROOT makedirs translate gtts_save path_exists hash2
              py_repr company_name d f Hne Hf) as (_ & Hname2).
  rewrite (Hname1 _ Hrun1), (Hname2 _ Hrun2). intros Heq.
  by apply Hhash, (audio_filename_hash _ _ company_name).
Qed.

(** ** Concurrent enrichment orchestrator *)

Section OrchestratorFacts.

Variable sentiment_pipeline : string → option string.
Variable summarizer : string → Z → Z → option string.

#[local] Abbreviation set_sentiment := (set_sentiment sentiment_pipeline).
#[local] Abbreviation set_summary := (set_summary summarizer).
#[local] Abbreviation process_article := (process_article sentiment_pipeline summarizer).
#[local] Abbreviation task_step := (task_step sentiment_pipeline summarizer).
#[local] Abbreviation pool_step := (pool_step sentiment_pipeline summarizer).
#[local] Abbreviation article_at := (article_at sentiment_pipeline summarizer).
#[local] Abbreviation pool_inv := (pool_inv sentiment_pipeline summarizer).

Lemma task_step_article (t t' : task) (a : article) :
  task_article t = article_at (task_progress t) a →
  task_step t = Some t' →
  task_article t' = article_at (task_progress t') a.
Proof.
  destruct t as [b pr]. unfold task_step. simpl. intros ->.
  destruct pr; intros [= <-]; done.
Qed.

Lemma pool_inv_init (articles : list article) : pool_inv articles (submit_all articles).
Proof.
  unfold submit_all. split; [by rewrite length_fmap|].
  intros i a t Ha. rewrite list_lookup_fmap, Ha. by intros [= <-].
Qed.

Lemma pool_inv_step (articles : list article) (pool pool' : list task) :
  pool_inv articles pool → pool_step pool pool' → pool_inv articles pool'.
Proof.
  intros [Hlen Hinv] Hstep. destruct Hstep as [pool i t t' Hi Ht].
  split; [by rewrite length_insert|].
  intros j a u Ha. destruct (decide (i = j)) as [->|Hne].
  - rewrite list_lookup_insert_eq by (by eapply lookup_lt_Some).
    intros [= <-]. apply (task_step_article t); [by apply (Hinv j)|done].
  - rewrite list_lookup_insert_ne by done. by apply Hinv.
Qed.

Lemma pool_inv_reachable (articles : list article) (pool : list task) :
  rtc pool_step (submit_all articles) pool → pool_inv articles pool.
Proof.
  revert pool. apply rtc_ind_r.
  - apply pool_inv_init.
  - intros pool1 pool2 _ Hstep IH. by apply (pool_inv_step _ pool1).
Qed.

Lemma pool_collect (articles : list article) (pool : list task) :
  pool_inv articles pool → all_done pool → collect pool = process_article <$> articles.
Proof.
  intros [Hlen Hinv] Hdone. apply list_eq. intros i. unfold collect.
  rewrite !list_lookup_fmap.
  destruct (articles !! i) as [a|] eqn:Ha.
  - destruct (lookup_lt_is_Some_2 pool i) as [t Ht].
    { rewrite Hlen. by eapply lookup_lt_Some. }
    rewrite Ht. simpl. f_equal. rewrite (Hinv i a t Ha Ht).
    unfold all_done in Hdone. rewrite Forall_lookup in Hdone. by rewrite (Hdone i t Ht).
  - rewrite lookup_ge_None_2; [done|]. rewrite Hlen. by apply lookup_ge_None.
Qed.

Lemma sum_list_insert (l : list nat) (i x y : nat) :
  l !! i = Some x → (sum_list (<[i := y]> l) + x = sum_list l + y)%nat.
Proof.
  revert i. induction l as [|z l IH]; intros [|i]; simpl; try done.
  - intros [= ->]. lia.
  - intros Hi. specialize (IH i Hi). lia.
Qed.

Lemma pool_step_decreases (pool pool' : list task) :
  pool_step pool pool' → (pool_remaining pool' < pool_remaining pool)%nat.
Proof.
  intros [pool0 i t t' Hi Ht]. unfold pool_remaining. rewrite list_fmap_insert.
  pose proof (sum_list_insert (task_remaining <$> pool0) i (task_remaining t)
                (task_remaining t')) as Hsum.
  rewrite list_lookup_fmap, Hi in Hsum. specialize (Hsum eq_refl).
  assert (task_remaining t' < task_remaining t)%nat; [|lia].
  destruct t as [a pr]. unfold task_step in Ht. simpl in Ht.
  destruct pr; simplify_eq; unfold task_remaining; simpl; lia.
Qed.

Lemma pool_progress (pool : list task) :
  ¬ all_done pool → ∃ pool', pool_step pool pool'.
Proof.
  unfold all_done. intros Hnot.
  apply not_Forall_Exists in Hnot; [|intros t; apply _].
  apply Exists_exists in Hnot as (t & Hin & Hpr).
  apply list_elem_of_lookup in Hin as [i Hi].
  assert (∃ t', task_step t = Some t') as [t' Ht].
  { destruct t as [a pr]. unfold task_step. simpl in *. destruct pr; eauto. done. }
  exists (<[i := t']> pool). by econstructor.
Qed.

Lemma run_schedule_reachable (schedule : list nat) (pool : list task) :
  rtc pool_step pool (run_schedule sentiment_pipeline summarizer schedule pool).
Proof.
  revert pool. induction schedule as [|i schedule IH]; intros pool; simpl; [done|].
  etrans; [|apply IH].
  unfold run_step. destruct (pool !! i) as [t|] eqn:Hi; [|done].
  destruct (task_step t) as [t'|] eqn:Ht; [|done].
  apply rtc_once. by econstructor.
Qed.

End OrchestratorFacts.

(** C9. Whatever the interleaving of the workers, once every task has
    finished the collected list is [process_article] of each submitted
    article, in submission order; until then some task can move, and every
    move leaves fewer statements to run, so every run of the pool ends. *)
Theorem enrichment_keeps_order (sentiment_pipeline : string → option string)
    (summarizer : string → Z → Z → option string)
    (articles : list article) (pool : list task) :
  rtc (pool_step sentiment_pipeline summarizer) (submit_all articles) pool →
  (all_done pool →
   collect pool = process_article sentiment_pipeline summarizer <$> articles) ∧
  (¬ all_done pool → ∃ pool', pool_step sentiment_pipeline summarizer pool pool') ∧
  (∀ pool', pool_step sentiment_pipeline summarizer pool pool' →
            (pool_remaining pool' < pool_remaining pool)%nat).
Proof.
  intros Hrun. split; [|split].
  - apply pool_collect. by apply pool_inv_reachable.
  - apply pool_progress.
  - apply pool_step_decreases.
Qed.

(** * Worked instances *)

Example verdict_3_0 : verdict_of (analyze_articles (mixed 3 0)) = Some positive_sentence.
Proof. reflexivity. Qed.

Example verdict_0_3 : verdict_of (analyze_articles (mixed 0 3)) = Some negative_sentence.
Proof. reflexivity. Qed.

Example verdict_2_2 : verdict_of (analyze_articles (mixed 2 2)) = Some balanced_sentence.
Proof. reflexivity. Qed.

Example verdict_0_0 : verdict_of (analyze_articles (mixed 0 0)) = Some balanced_sentence.
Proof. reflexivity. Qed.

Example analyze_empty : analyze_articles [] = AnalysisError "No articles to analyze".
Proof. reflexivity. Qed.

Example analyze_not_a_dict :
  analyze_articles [enriched_article "Positive" "Up"; PInt 3] = AnalysisError "Analysis failed".
Proof. reflexivity. Qed.

Example sample_topics :
  match analyze_articles sample_articles with
  | AnalysisReport r =>
      common_topics r = ["Tesla"; "Shares"; "Rally"] ∧
      coverage_differences r =
        ["2 articles highlight positive developments";
         "1 articles discuss challenges/risks";
         "Positive articles include: Tesla shares rally after earnings, Tesla shares climb";
         "Negative articles include: Tesla recall widens"] ∧
      sentiment_distribution r !! "Neutral" = Some 1
  | AnalysisError _ => False
  end.
Proof. vm_compute. by repeat split. Qed.

Example sample_script :
  build_summary_text repr_stub "Acme" (PDict sample_analysis) =
  Ok ("Company: Acme. Overall Sentiment: News coverage is mostly positive.. " +:+
      "Positive articles: 2, Negative articles: 1, Neutral articles: 0. " +:+
      "Common topics include Acme, Earnings. " +:+
      "Key insights are: 1. 2 articles highlight positive developments " +:+
      "2. 1 articles discuss challenges/risks. ").
Proof. reflexivity. Qed.

Example sorted_desc_stable :
  sorted_desc [("a", 1); ("b", 2); ("c", 1); ("d", 2)] = [("b", 2); ("d", 2); ("a", 1); ("c", 1)].
Proof. reflexivity. Qed.

Example path_join_example :
  path_join "/srv/media" "Acme_1.mp3" = "/srv/media/Acme_1.mp3" ∧
  path_join "/srv/media/" "a.mp3" = "/srv/media/a.mp3" ∧
  path_join "/srv/media" "/etc/x_1.mp3" = "/etc/x_1.mp3".
Proof. by repeat split. Qed.

Example split_example : split "  Tesla   shares	rally " = ["Tesla"; "shares"; "rally"].
Proof. reflexivity. Qed.

Example title_example : title "don't 3d tesla" = "Don'T 3D Tesla".
Proof. reflexivity. Qed.

(** * Instances of the theorems *)

Lemma final_sentiment_majority_witness :
  ∃ r p n,
    analyze_articles sample_articles = AnalysisReport r ∧
    sentiment_distribution r !! "Positive" = Some p ∧
    sentiment_distribution r !! "Negative" = Some n ∧
    p = 2 ∧
    n = 1 ∧
    (final_sentiment_analysis r = positive_sentence ↔ n < p) ∧
    (final_sentiment_analysis r = negative_sentence ↔ p < n) ∧
    (final_sentiment_analysis r = balanced_sentence ↔ p = n).
Proof.
  apply (final_sentiment_majority sample_articles);
    [discriminate|by repeat constructor].
Defined.

Lemma sentiment_distribution_total_witness :
  ∃ r p n z,
    analyze_articles sample_articles = AnalysisReport r ∧
    dom (sentiment_distribution r) = {["Positive"; "Negative"; "Neutral"]} ∧
    sentiment_distribution r !! "Positive" = Some p ∧
    sentiment_distribution r !! "Negative" = Some n ∧
    sentiment_distribution r !! "Neutral" = Some z ∧
    0 ≤ p ∧ 0 ≤ n ∧ 0 ≤ z ∧
    p + n + z = 4 ∧
    p = label_count "Positive" sample_articles ∧
    n = label_count "Negative" sample_articles ∧
    z = label_count "Neutral" sample_articles + unrecognized_count sample_articles.
Proof.
  apply (sentiment_distribution_total sample_articles);
    [discriminate|by repeat constructor].
Defined.


Lemma coverage_differences_layout_witness :
  ∃ r,
    analyze_articles sample_articles = AnalysisReport r ∧
    coverage_differences r =
      ["2 articles highlight positive developments";
       "1 articles discuss challenges/risks";
       "Positive articles include: Tesla shares rally after earnings, Tesla shares climb";
       "Negative articles include: Tesla recall widens"].
Proof.
  apply (coverage_differences_layout sample_articles);
    [discriminate|by repeat constructor].
Defined.

Lemma summarize_contract_witness :
  summarize echo_bounds (words_text 29) = words_text 29 ∧
  summarize echo_bounds (words_text 700) = "150/175" ∧
  summarize failing_summarizer (words_text 31) = String.substring 0 150 (words_text 31) +:+ "...".
Proof.
  split; [|split].
  - apply (proj1 (summarize_contract echo_bounds (words_text 29))). by vm_compute.
  - apply (proj1 (proj2 (summarize_contract echo_bounds (words_text 700)))).
    + by vm_compute.
    + by vm_compute.
  - apply (proj2 (proj2 (summarize_contract failing_summarizer (words_text 31)))).
    + by vm_compute.
    + reflexivity.
Defined.

Lemma summarize_bounds_cross_witness :
  max_length (word_count (words_text 34)) = 24 ∧
  min_length (word_count (words_text 34)) = 30 ∧
  summarize echo_bounds (words_text 34) = "24/30".
Proof.
  destruct (summarize_bounds_cross echo_bounds (words_text 34)) as (Hmax & Hmin & _ & Hcall).
  - by vm_compute.
  - split; [exact Hmax|]. split; [exact Hmin|]. exact Hcall.
Defined.

Lemma script_layout_witness :
  build_summary_text repr_stub "Acme" (PDict sample_analysis) =
    Ok ("Company: Acme. Overall Sentiment: News coverage is mostly positive.. " +:+
        "Positive articles: 2, Negative articles: 1, Neutral articles: 0. " +:+
        "Common topics include Acme, Earnings. " +:+
        "Key insights are: 1. 2 articles highlight positive developments " +:+
        "2. 1 articles discuss challenges/risks. ").
Proof.
  apply (script_layout "/srv/media" makedirs_ok translate_ok save_ok exists_ok
           hash_a repr_stub "Acme" sample_analysis sample_fields).
  - discriminate.
  - by repeat split.
Defined.

Lemma generate_tts_rejects_witness :
  generate_tts "/srv/media" makedirs_ok translate_ok save_ok exists_ok hash_a repr_stub
               "Acme" PNone
    = ([LogError "Invalid analysis_data provided to generate_tts()"], None) ∧
  generate_tts "/srv/media" makedirs_ok translate_ok save_ok exists_ok hash_a repr_stub
               "Acme" (PDict [])
    = ([LogError "Invalid analysis_data provided to generate_tts()"], None) ∧
  generate_tts "/srv/media" makedirs_ok translate_ok save_ok exists_ok hash_a repr_stub
               "Acme" (PList [PStr "sentiment_distribution"])
    = ([LogError "Invalid analysis_data provided to generate_tts()"], None).
Proof.
  split; [|split]; apply generate_tts_rejects.
  - left. reflexivity.
  - right. left. reflexivity.
  - right. right. reflexivity.
Defined.

Lemma filename_follows_process_hash_witness :
  ∃ file1 file2,
    (generate_tts "/srv/media" makedirs_ok translate_ok save_ok exists_ok hash_a repr_stub
                  "Acme Corp" (PDict sample_analysis)).2 = Some file1 ∧
    (generate_tts "/srv/media" makedirs_ok translate_ok save_ok exists_ok hash_b repr_stub
                  "Acme Corp" (PDict sample_analysis)).2 = Some file2 ∧
    file1 ≠ file2.
Proof.
  exists "Acme_Corp_281.mp3", "Acme_Corp_-282.mp3".
  split; [reflexivity|]. split; [reflexivity|].
  apply (filename_follows_process_hash "/srv/media" makedirs_ok translate_ok save_ok
           exists_ok repr_stub hash_a hash_b "Acme Corp" sample_analysis sample_fields).
  - discriminate.
  - by repeat split.
  - by vm_compute.
  - reflexivity.
  - reflexivity.
Defined.

(** The three tasks finish in the reverse of the submission order. *)
Lemma enrichment_keeps_order_witness :
  collect (run_schedule label_positive echo_bounds [2; 2; 1; 1; 0; 0]%nat
             (submit_all sample_raw))
  = process_article label_positive echo_bounds <$> sample_raw.
Proof.
  apply (enrichment_keeps_order label_positive echo_bounds sample_raw).
  - apply run_schedule_reachable.
  - by repeat constructor.
Defined.

(** * Further properties *)

(** ** The analyzer on arbitrary request bodies *)

Lemma enriched_processable (a : pyval) : enriched a = true → processable a = true.
Proof.
  destruct a as [| | | |l|d]; simpl; try done.
  destruct (dict_get d "sentiment" (PStr "Neutral")); try done.
Qed.

(** One iteration on a processable article: as on an enriched one, with a
    sentiment that is not a str counted under Neutral. *)
Lemma article_step_processable (st : loop_state) (a : pyval) (p n z : Z) :
  processable a = true →
  tally (sentiment_counts st) p n z →
  ∃ counts,
    article_step st a =
      Ok (LoopState counts
            (all_topics st ++ (lower <$> take 3 (split (title_of a))))
            (pos_titles st ++ (PStr <$> titles_with "Positive" [a]))
            (neg_titles st ++ (PStr <$> titles_with "Negative" [a]))) ∧
    tally counts (p + label_count "Positive" [a])
                 (n + label_count "Negative" [a])
                 (z + other_count [a]).
Proof.
  intros Hproc Htally.
  destruct (enriched a) eqn:Hen; [by apply article_step_enriched|].
  destruct a as [| | | |l|d]; try done. simpl in Hproc, Hen.
  pose proof Htally as (Hp & Hn & Hz & Hdom).
  unfold article_step. cbn [py_get mbind result_bind].
  rewrite !label_count_cons, other_count_cons, !titles_with_cons.
  change (label_count ?l []) with 0. change (other_count []) with 0.
  change (titles_with ?l []) with (@nil string).
  unfold sentiment_of, title_of.
  destruct (dict_get d "sentiment" (PStr "Neutral")) as [|b|i|s|l|d'];
    destruct (dict_get d "title" (PStr EmptyString)) as [| | |t| |]; try done;
    cbn [py_in_counts mbind result_bind py_eq_str py_split];
    unfold counts_incr, counts_item; rewrite Hz; cbn [mbind result_bind];
    rewrite (title_topics_tokens _ (split_tokens t));
    (eexists; split; [by rewrite !app_nil_r|]);
    rewrite !decide_False by done; rewrite decide_True by done;
    rewrite !Z.add_0_r; by apply tally_incr_neutral.
Qed.

Lemma for_each_processable (articles : list pyval) (st : loop_state) (p n z : Z) :
  Forall (λ a, processable a = true) articles →
  tally (sentiment_counts st) p n z →
  ∃ counts,
    for_each article_step articles st =
      Ok (LoopState counts
            (all_topics st ++ topic_tokens articles)
            (pos_titles st ++ (PStr <$> titles_with "Positive" articles))
            (neg_titles st ++ (PStr <$> titles_with "Negative" articles))) ∧
    tally counts (p + label_count "Positive" articles)
                 (n + label_count "Negative" articles)
                 (z + other_count articles).
Proof.
  intros Hall. revert st p n z.
  induction Hall as [|a articles Ha _ IH]; intros st p n z Htally.
  - exists (sentiment_counts st). simpl.
    change (label_count ?l []) with 0. change (other_count []) with 0.
    change (topic_tokens []) with (@nil string).
    rewrite !app_nil_r, !Z.add_0_r. by destruct st.
  - destruct (article_step_processable st a p n z Ha Htally) as (c1 & Hstep & Ht1).
    cbn [for_each]. rewrite Hstep. cbn [mbind result_bind].
    match goal with |- context [for_each _ _ ?st1] =>
      destruct (IH st1 _ _ _ Ht1) as (c2 & Hrun & Ht2) end.
    exists c2. rewrite topic_tokens_cons.
    change (a :: articles) with ([a] ++ articles). split.
    + rewrite Hrun. cbn [all_topics pos_titles neg_titles].
      rewrite (titles_with_app "Positive" [a] articles), (titles_with_app "Negative" [a] articles).
      by rewrite !fmap_app, !app_assoc.
    + rewrite (label_count_app "Positive" [a] articles), (label_count_app "Negative" [a] articles),
        (other_count_app [a] articles), !Z.add_assoc. exact Ht2.
Qed.

(** The report on a non-empty list of processable articles. *)
Lemma analyze_articles_processable (articles : list pyval) :
  articles ≠ [] →
  Forall (λ a, processable a = true) articles →
  ∃ counts,
    tally counts (label_count "Positive" articles) (label_count "Negative" articles)
                 (other_count articles) ∧
    analyze_articles articles =
      AnalysisReport
        (Report counts
           (title <$> ranked_topics articles)
           ([pretty (label_count "Positive" articles) +:+ " articles highlight positive developments";
             pretty (label_count "Negative" articles) +:+ " articles discuss challenges/risks"]
              ++ titles_sentence "Positive articles include: " (titles_with "Positive" articles)
              ++ titles_sentence "Negative articles include: " (titles_with "Negative" articles))
           (if label_count "Negative" articles <? label_count "Positive" articles
            then positive_sentence
            else if label_count "Positive" articles <? label_count "Negative" articles
                 then negative_sentence
                 else balanced_sentence)).
Proof.
  intros Hne Hall.
  destruct (for_each_processable articles (LoopState initial_counts [] [] []) 0 0 0
              Hall initial_tally) as (counts & Hrun & Htally).
  rewrite !Z.add_0_l in Htally. cbn [all_topics pos_titles neg_titles] in Hrun.
  rewrite !app_nil_l in Hrun.
  exists counts. split; [done|].
  destruct articles as [|a0 rest]; [done|]. unfold analyze_articles.
  set (articles := a0 :: rest) in *.
  unfold analyze_body. rewrite Hrun.
  destruct Htally as (Hp & Hn & _).
  cbn [mbind result_bind sentiment_counts all_topics pos_titles neg_titles].
  unfold counts_item. rewrite Hp, Hn.
  cbn [mbind result_bind].
  rewrite (titles_block "Positive articles include: ").
  cbn [mbind result_bind].
  rewrite (titles_block "Negative articles include: ").
  cbn [mbind result_bind try_except].
  unfold ranked_topics. rewrite <- list_fmap_compose, <- app_assoc. reflexivity.
Qed.

(** An article that is not processable makes its iteration raise. *)
Lemma article_step_raises (st : loop_state) (a : pyval) :
  processable a = false → ∃ e, article_step st a = Raise e.
Proof.
  intros Hproc. unfold article_step.
  destruct a as [| | | |l|d]; cbn [py_get mbind result_bind]; eauto.
  simpl in Hproc.
  destruct (dict_get d "sentiment" (PStr "Neutral")) as [|b|i|s|l|d'];
    cbn [py_in_counts mbind result_bind]; eauto;
    try destruct (bool_decide _);
    unfold counts_incr, counts_item;
    repeat match goal with
           | |- context [sentiment_counts st !! ?k] =>
               destruct (sentiment_counts st !! k); cbn [mbind result_bind]; eauto
           end;
    destruct (dict_get d "title" (PStr EmptyString));
    cbn [py_split mbind result_bind]; eauto; done.
Qed.

Lemma for_each_raises (articles : list pyval) (st : loop_state) :
  Exists (λ a, processable a = false) articles →
  ∃ e, for_each article_step articles st = Raise e.
Proof.
  intros Hex. revert st.
  induction Hex as [a articles Ha|a articles _ IH]; intros st; cbn [for_each].
  - destruct (article_step_raises st a Ha) as [e ->]. by exists e.
  - destruct (article_step st a) as [st'|e]; cbn [mbind result_bind]; [apply IH|by exists e].
Qed.

Lemma analyze_articles_failed (articles : list pyval) :
  articles ≠ [] →
  Exists (λ a, processable a = false) articles →
  analyze_articles articles = AnalysisError "Analysis failed".
Proof.
  intros Hne Hex. destruct articles as [|a0 rest]; [done|].
  destruct (for_each_raises (a0 :: rest) (LoopState initial_counts [] [] []) Hex)
    as [e Hraise].
  unfold analyze_articles, analyze_body. by rewrite Hraise.
Qed.

(** X1. [analyze_articles] returns a report exactly on a non-empty list
    whose articles are all dicts with a hashable [sentiment] and a str
    [title] (either may be missing); on any other non-empty list it returns
    the error "Analysis failed", and on the empty list "No articles to
    analyze". No partial report is ever returned. *)
Theorem analyze_articles_outcome (articles : list pyval) :
  ((∃ r, analyze_articles articles = AnalysisReport r) ↔
   articles ≠ [] ∧ Forall (λ a, processable a = true) articles) ∧
  (analyze_articles articles = AnalysisError "Analysis failed" ↔
   articles ≠ [] ∧ Exists (λ a, processable a = false) articles) ∧
  (analyze_articles articles = AnalysisError "No articles to analyze" ↔ articles = []).
Proof.
  destruct articles as [|a0 rest].
  { split; [|split]; (split; [|by intros [? ?] || done]); try done. by intros [r ?]. }
  set (articles := a0 :: rest).
  destruct (decide (Forall (λ a, processable a = true) articles)) as [Hall|Hnot].
  - destruct (analyze_articles_processable articles) as (counts & _ & Hrep); [done|done|].
    rewrite Hrep. split; [|split].
    + split; [done|]. intros _. by eexists.
    + split; [done|]. intros [_ Hex]. apply Exists_exists in Hex as (a & Hin & Ha).
      rewrite Forall_forall in Hall. specialize (Hall a Hin). congruence.
    + by split.
  - assert (Exists (λ a, processable a = false) articles) as Hex.
    { apply not_Forall_Exists in Hnot; [|intros a; apply _].
      eapply Exists_impl; [exact Hnot|]. intros a Ha. simpl in Ha. by destruct (processable a). }
    rewrite (analyze_articles_failed articles) by done. split; [|split].
    + split; [by intros [r ?]|by intros [_ ?]].
    + by split.
    + by split.
Qed.

Lemma other_count_neutral (articles : list pyval) :
  Forall (λ a, processable a = true) articles →
  other_count articles =
  Z.of_nat (length (filter (λ a, counted_neutral a = true) articles)).
Proof.
  induction 1 as [|a articles Ha _ IH]; [done|].
  rewrite other_count_cons, IH, filter_cons.
  assert (sentiment_of a ≠ "Positive" ∧ sentiment_of a ≠ "Negative" ↔ counted_neutral a = true)
    as Hiff.
  { destruct a as [| | | |l|d]; try done. simpl in *.
    destruct (dict_get d "sentiment" (PStr "Neutral")) as [|b|i|s|l|d']; try done.
    cbn [py_eq_str]. rewrite !eqb_decide, andb_true_iff, !negb_true_iff.
    rewrite !bool_decide_eq_false. done. }
  repeat case_decide; cbn [length]; try lia; exfalso; tauto.
Qed.

(** X2. On a non-empty list of processable articles the three counts sum
    to the number of articles, and the Neutral count is the number of
    articles whose sentiment is anything but the str "Positive" or the str
    "Negative": a missing key, null, a boolean, a number or another str. *)
Theorem neutral_absorbs_other_values (articles : list pyval) :
  articles ≠ [] →
  Forall (λ a, processable a = true) articles →
  ∃ r p n z,
    analyze_articles articles = AnalysisReport r ∧
    sentiment_distribution r !! "Positive" = Some p ∧
    sentiment_distribution r !! "Negative" = Some n ∧
    sentiment_distribution r !! "Neutral" = Some z ∧
    p + n + z = Z.of_nat (length articles) ∧
    z = Z.of_nat (length (filter (λ a, counted_neutral a = true) articles)).
Proof.
  intros Hne Hall.
  destruct (analyze_articles_processable articles Hne Hall)
    as (counts & (Hp & Hn & Hz & _) & ->).
  eexists _, _, _, _. split; [reflexivity|]. cbn [sentiment_distribution].
  split; [exact Hp|]. split; [exact Hn|]. split; [exact Hz|].
  split; [apply counts_partition|by apply other_count_neutral].
Qed.

(** ** Distinct topics *)

Lemma lower_upper_char (c : ascii) : py_lower_char (py_upper_char c) = py_lower_char c.
Proof. by destruct c as [[] [] [] [] [] [] [] []]. Qed.

Lemma lower_lower_char (c : ascii) : py_lower_char (py_lower_char c) = py_lower_char c.
Proof. by destruct c as [[] [] [] [] [] [] [] []]. Qed.

Lemma title_plain_char (c : ascii) :
  plain_char c = true → py_title_char c = String (py_upper_char c) EmptyString.
Proof.
  unfold plain_char, py_title_char. destruct (Nat.eqb (nat_of_ascii c) 223); [|done].
  by rewrite orb_true_r.
Qed.

Lemma lower_title_go (b : bool) (s : string) :
  plain_case s = true → lower (title_go b s) = lower s.
Proof.
  unfold plain_case, lower. revert b.
  induction s as [|c s IH]; intros b Hs; [done|].
  cbn [sall] in Hs. apply andb_true_iff in Hs as [Hc Hs].
  cbn [title_go]. rewrite (title_plain_char c Hc).
  assert (∀ x t, String x EmptyString +:+ t = String x t) as Hcons by done.
  destruct b; rewrite Hcons; cbn [smap]; rewrite (IH _ Hs);
    by rewrite ?lower_upper_char, ?lower_lower_char.
Qed.

Lemma plain_lower_char (c : ascii) : plain_char (py_lower_char c) = plain_char c.
Proof. by destruct c as [[] [] [] [] [] [] [] []]. Qed.

Lemma plain_lower (s : string) : plain_case (lower s) = plain_case s.
Proof.
  unfold plain_case, lower. induction s as [|c s IH]; [done|].
  cbn [smap sall]. by rewrite plain_lower_char, IH.
Qed.

Lemma split_go_sall (p : ascii → bool) (s cur : string) :
  sall p cur = true → sall p s = true →
  Forall (λ w, sall p w = true) (split_go cur s).
Proof.
  revert cur. induction s as [|c s IH]; intros cur Hcur Hs; simpl.
  - destruct cur; simpl; by repeat constructor.
  - cbn [sall] in Hs. apply andb_true_iff in Hs as [Hc Hs].
    destruct (py_isspace c).
    + apply Forall_app. split; [destruct cur; simpl; by repeat constructor|by apply IH].
    + apply IH; [|done]. by rewrite sall_snoc, Hcur, Hc.
Qed.

Lemma elem_of_concat {A} (x : A) (ls : list (list A)) :
  x ∈ concat ls ↔ ∃ l, l ∈ ls ∧ x ∈ l.
Proof.
  induction ls as [|l ls IH]; simpl.
  - split; [by intros ?%elem_of_nil|by intros (l & ?%elem_of_nil & _)].
  - rewrite elem_of_app, IH. split.
    + intros [Hx|(l' & Hl' & Hx)]; [exists l; split; [by left|done]|].
      exists l'. split; [by right|done].
    + intros (l' & [->|Hl']%elem_of_cons & Hx); [by left|]. right. by exists l'.
Qed.

Lemma topic_tokens_plain (articles : list pyval) (t : string) :
  Forall (λ a, plain_case (title_of a) = true) articles →
  t ∈ topic_tokens articles → plain_case t = true.
Proof.
  intros Hall. unfold topic_tokens. intros (ts & Hts & Ht)%elem_of_concat.
  apply list_elem_of_fmap in Hts as (a & -> & Ha).
  apply list_elem_of_fmap in Ht as (w & -> & Hw).
  rewrite plain_lower. apply (subseteq_take 3) in Hw.
  rewrite Forall_forall in Hall.
  pose proof (split_go_sall plain_char (title_of a) EmptyString eq_refl (Hall a Ha)) as Hsplit.
  rewrite Forall_forall in Hsplit. by apply Hsplit.
Qed.

Lemma lower_idemp (s : string) : lower (lower s) = lower s.
Proof.
  unfold lower. induction s as [|c s IH]; [done|].
  cbn [smap]. by rewrite lower_lower_char, IH.
Qed.

Lemma topic_tokens_lower (articles : list pyval) (t : string) :
  t ∈ topic_tokens articles → lower t = t.
Proof.
  unfold topic_tokens. intros (ts & Hts & Ht)%elem_of_concat.
  apply list_elem_of_fmap in Hts as (a & -> & _).
  apply list_elem_of_fmap in Ht as (w & -> & _). apply lower_idemp.
Qed.


(** ** Order of the articles *)

Lemma tally_unique (c1 c2 : gmap string Z) (p n z : Z) :
  tally c1 p n z → tally c2 p n z → c1 = c2.
Proof.
  intros (Hp1 & Hn1 & Hz1 & Hd1) (Hp2 & Hn2 & Hz2 & Hd2). apply map_eq. intros k.
  destruct (decide (k ∈ three_labels)) as [Hin|Hout].
  - unfold three_labels in Hin. rewrite !elem_of_union, !elem_of_singleton in Hin.
    destruct Hin as [[->| ->]| ->]; congruence.
  - assert (c1 !! k = None) as -> by (apply not_elem_of_dom; by rewrite Hd1).
    symmetry. apply not_elem_of_dom. by rewrite Hd2.
Qed.

Lemma label_count_perm (label : string) (xs ys : list pyval) :
  xs ≡ₚ ys → label_count label xs = label_count label ys.
Proof. intros Hperm. unfold label_count. by rewrite Hperm. Qed.

Lemma other_count_perm (xs ys : list pyval) : xs ≡ₚ ys → other_count xs = other_count ys.
Proof. intros Hperm. unfold other_count. by rewrite Hperm. Qed.

(** X4. The sentiment distribution and the verdict do not depend on the
    order of the articles: two non-empty processable lists that are
    permutations of each other get the same distribution and the same
    verdict. *)
Theorem distribution_order_independent (articles articles' : list pyval) :
  articles ≠ [] →
  Forall (λ a, processable a = true) articles →
  articles ≡ₚ articles' →
  ∃ r r',
    analyze_articles articles = AnalysisReport r ∧
    analyze_articles articles' = AnalysisReport r' ∧
    sentiment_distribution r = sentiment_distribution r' ∧
    final_sentiment_analysis r = final_sentiment_analysis r'.
Proof.
  intros Hne Hall Hperm.
  assert (articles' ≠ []) as Hne'.
  { intros ->. by apply Permutation_nil_r in Hperm. }
  assert (Forall (λ a, processable a = true) articles') as Hall' by by rewrite <- Hperm.
  destruct (analyze_articles_processable articles Hne Hall) as (c & Ht & ->).
  destruct (analyze_articles_processable articles' Hne' Hall') as (c' & Ht' & ->).
  eexists _, _. split; [reflexivity|]. split; [reflexivity|].
  cbn [sentiment_distribution final_sentiment_analysis].
  rewrite <- (label_count_perm "Positive" _ _ Hperm), <- (label_count_perm "Negative" _ _ Hperm),
    <- (other_count_perm _ _ Hperm) in *.
  split; [by eapply tally_unique|done].
Qed.

(** ** Length bounds of the summarizer *)

(** X5. For a text of at least 30 words the bounds handed to the
    summarization capability are consistent ([min_length <= max_length])
    exactly when the text has 40 to 603 words: below 40 words [max_length]
    falls under 30, and from 604 words on [min_length] exceeds 150. *)
Theorem summarize_bounds_consistent (summarizer : string → Z → Z → option string)
    (text : string) :
  30 ≤ word_count text →
  (min_length (word_count text) ≤ max_length (word_count text)
   ↔ 40 ≤ word_count text ≤ 603) ∧
  summarize summarizer text =
    match summarizer text (max_length (word_count text)) (min_length (word_count text)) with
    | Some summary => summary
    | None => String.substring 0 150 text +:+ "..."
    end.
Proof.
  intros Hwc. split; [|by apply summarize_long].
  unfold min_length, max_length.
  pose proof (Z.div_mod (word_count text) 4 ltac:(lia)) as Hdiv.
  pose proof (Z.mod_pos_bound (word_count text) 4 ltac:(lia)) as Hmod.
  lia.
Qed.

Lemma substring_length (n : nat) (s : string) :
  String.length (String.substring 0 n s) = (n `min` String.length s)%nat.
Proof.
  revert s. induction n as [|n IH]; intros [|c s]; simpl; try done.
  by rewrite IH.
Qed.

(** X6. When the capability fails on a text of at least 30 words the
    fallback summary has at most 153 characters: 150 of the text and the
    ellipsis; it is shorter only when the text itself has fewer than 150
    characters. *)
Theorem summarize_fallback_length (summarizer : string → Z → Z → option string)
    (text : string) :
  30 ≤ word_count text →
  summarizer text (max_length (word_count text)) (min_length (word_count text)) = None →
  String.length (summarize summarizer text) = (150 `min` String.length text + 3)%nat.
Proof.
  intros Hwc Hfail. rewrite summarize_long, Hfail by done.
  unfold prefix. by rewrite app_length_s, substring_length.
Qed.

(** ** Narration of the analyzer's result *)

Section NarrationOutcomes.

Variable MEDIA_ROOT : string.
Variable makedirs : string → bool.
Variable translate : string → option string.
Variable gtts_save : string → string → bool.
Variable path_exists : string → bool.
Variable py_hash : string → Z.
Variable py_repr : pyval → string.

#[local] Abbreviation generate_tts :=
  (generate_tts MEDIA_ROOT makedirs translate gtts_save path_exists py_hash py_repr).
#[local] Abbreviation build_summary_text := (build_summary_text py_repr).
#[local] Abbreviation audio_filename := (audio_filename py_hash).

(** Every way a run can go, by the first step that fails. *)
Lemma generate_tts_cases (company_name : string) (analysis_data : pyval) :
  let run := generate_tts company_name analysis_data in
  (truthy analysis_data && isinstance_dict analysis_data = false ∧
   run = ([LogError "Invalid analysis_data provided to generate_tts()"], None)) ∨
  (truthy analysis_data && isinstance_dict analysis_data = true ∧
   ((makedirs MEDIA_ROOT = false ∧
     run = ([Makedirs MEDIA_ROOT; LogCaught "TTS generation error: " ExternalError], None)) ∨
    (makedirs MEDIA_ROOT = true ∧
     ((∃ e, build_summary_text company_name analysis_data = Raise e ∧
            run = ([Makedirs MEDIA_ROOT; LogCaught "TTS generation error: " e], None)) ∨
      (∃ script, build_summary_text company_name analysis_data = Ok script ∧
         let file_path := path_join MEDIA_ROOT (audio_filename company_name script) in
         ((translate script = None ∧
           run = ([Makedirs MEDIA_ROOT;
                   LogInfo ("Generated summary text: " +:+ script);
                   Translate script;
                   LogCaught "TTS generation error: " ExternalError], None)) ∨
          (∃ translated, translate script = Some translated ∧
             let start := [Makedirs MEDIA_ROOT;
                           LogInfo ("Generated summary text: " +:+ script);
                           Translate script;
                           LogInfo ("Translated text: " +:+ translated);
                           LogInfo ("Saving TTS audio to: " +:+ file_path);
                           Speak translated file_path] in
             ((gtts_save translated file_path = false ∧
               run = (start ++ [LogCaught "TTS generation error: " ExternalError], None)) ∨
              (gtts_save translated file_path = true ∧ path_exists file_path = false ∧
               run = (start ++ [LogError ("TTS file was not created: " +:+ file_path)], None)) ∨
              (gtts_save translated file_path = true ∧ path_exists file_path = true ∧
               run = (start ++ [LogInfo ("TTS file created: " +:+ file_path)],
                      Some (audio_filename company_name script))))))))))).
Proof.
  intros run. subst run. unfold generate_tts.
  destruct (truthy analysis_data) eqn:Htruthy; cbn [negb orb andb]; [|by left].
  destruct (isinstance_dict analysis_data) eqn:Hdict; cbn [negb]; [|by left].
  right. split; [done|].
  unfold traced_try, emit, lift. cbn [mbind traced_bind mret traced_ret app].
  destruct (makedirs MEDIA_ROOT); cbn [app]; [right; split; [done|]|by left].
  destruct (build_summary_text company_name analysis_data) as [script|e]; cbn [app];
    [right; exists script; split; [done|]|left; by exists e].
  cbv zeta.
  destruct (translate script) as [translated|]; cbn [app]; [right|by left].
  exists translated. split; [done|].
  destruct (gtts_save translated _); cbn [app]; [right|by left].
  destruct (path_exists _); cbn [app]; [right|left]; done.
Qed.

End NarrationOutcomes.

(** X7. [generate_tts] returns a file name exactly when the payload is a
    non-empty dict, the media directory could be made, the script could be
    built, the translator answered, the speech was saved and the file is
    there afterwards; the name returned is then the one derived from the
    company name and the hash of the script, and it names the file that was
    saved and checked. *)
Theorem generate_tts_returns_saved_file (MEDIA_ROOT : string) (makedirs : string → bool)
    (translate : string → option string) (gtts_save : string → string → bool)
    (path_exists : string → bool) (py_hash : string → Z) (py_repr : pyval → string)
    (company_name : string) (analysis_data : pyval) (filename : string) :
  (generate_tts MEDIA_ROOT makedirs translate gtts_save path_exists py_hash py_repr
                company_name analysis_data).2 = Some filename
  ↔ ∃ script translated,
      truthy analysis_data = true ∧ isinstance_dict analysis_data = true ∧
      makedirs MEDIA_ROOT = true ∧
      build_summary_text py_repr company_name analysis_data = Ok script ∧
      translate script = Some translated ∧
      filename = audio_filename py_hash company_name script ∧
      gtts_save translated (path_join MEDIA_ROOT filename) = true ∧
      path_exists (path_join MEDIA_ROOT filename) = true.
Proof.
  split.
  - pose proof (generate_tts_cases MEDIA_ROOT makedirs translate gtts_save path_exists
                  py_hash py_repr company_name analysis_data) as Hcases.
    cbv zeta in Hcases.
    destruct Hcases as [[_ ->]|[Hguard [[_ ->]|[Hmk [(e & _ & ->)|(script & Hb & Hrest)]]]]];
      try done.
    destruct Hrest as [[_ ->]|(translated & Ht & [[_ ->]|[(_ & _ & ->)|(Hs & He & ->)]])];
      try done.
    cbn [snd]. intros [= <-]. exists script, translated.
    apply andb_true_iff in Hguard as [? ?]. by repeat split.
  - intros (script & translated & Htruthy & Hdict & Hmk & Hb & Ht & -> & Hs & He).
    unfold generate_tts. rewrite Htruthy, Hdict, Hmk, Hb. cbn [negb orb].
    unfold traced_try, emit, lift. cbn [mbind traced_bind mret traced_ret app].
    rewrite Ht. cbn [app]. rewrite Hs. cbn [app]. by rewrite He.
Qed.

(** X8. Whatever [generate_tts] hands to the speech synthesis is the
    translation of the script it built from the payload, and the file it
    writes is the one named after the company and the hash of that script
    under the media root; a run speaks at most once. *)
Theorem spoken_text_is_translated_script (MEDIA_ROOT : string) (makedirs : string → bool)
    (translate : string → option string) (gtts_save : string → string → bool)
    (path_exists : string → bool) (py_hash : string → Z) (py_repr : pyval → string)
    (company_name : string) (analysis_data : pyval) (text path : string) :
  let run := generate_tts MEDIA_ROOT makedirs translate gtts_save path_exists py_hash
                          py_repr company_name analysis_data in
  Speak text path ∈ run.1 →
  (∃ script,
     build_summary_text py_repr company_name analysis_data = Ok script ∧
     Translate script ∈ run.1 ∧
     translate script = Some text ∧
     path = path_join MEDIA_ROOT (audio_filename py_hash company_name script)) ∧
  length (filter (λ ev, is_speak ev = true) run.1) = 1%nat.
Proof.
  pose proof (generate_tts_cases MEDIA_ROOT makedirs translate gtts_save path_exists
                py_hash py_repr company_name analysis_data) as Hcases.
  cbv zeta in Hcases |- *.
  assert (∀ evs : list event, Speak text path ∈ evs →
            Forall (λ ev, ∀ t p, ev ≠ Speak t p) evs → False) as Hnone.
  { intros evs Hin Hall. rewrite Forall_forall in Hall. by apply (Hall _ Hin text path). }
  destruct Hcases as [[_ ->]|[Hguard [[_ ->]|[Hmk [(e & _ & ->)|(script & Hb & Hrest)]]]]];
    try (intros Hin; exfalso; apply (Hnone _ Hin); by repeat constructor).
  destruct Hrest as [[_ ->]|(translated & Ht & Hrest)];
    [intros Hin; exfalso; apply (Hnone _ Hin); by repeat constructor|].
  assert (∀ last : event, (∀ t p, last ≠ Speak t p) →
            Speak text path ∈
              [Makedirs MEDIA_ROOT; LogInfo ("Generated summary text: " +:+ script);
               Translate script; LogInfo ("Translated text: " +:+ translated);
               LogInfo ("Saving TTS audio to: " +:+
                        path_join MEDIA_ROOT (audio_filename py_hash company_name script));
               Speak translated
                 (path_join MEDIA_ROOT (audio_filename py_hash company_name script))]
              ++ [last] →
            text = translated ∧
            path = path_join MEDIA_ROOT (audio_filename py_hash company_name script)) as Hfind.
  { intros last Hlast Hin. cbn [app] in Hin.
    repeat (apply elem_of_cons in Hin as [Heq|Hin]; [try done|]).
    - by injection Heq as -> ->.
    - by destruct (Hlast text path).
    - by apply elem_of_nil in Hin. }
  destruct Hrest as [[_ ->]|[(_ & _ & ->)|(_ & _ & ->)]]; cbn [fst];
    (intros [-> ->]%Hfind; [|done]);
    (split; [exists script; split; [done|]; split;
               [cbn [app]; do 2 right; by left|by split]|]);
    reflexivity.
Qed.

(** ** Where the audio file goes *)

Lemma rev_app_nonempty (s acc : string) : acc ≠ EmptyString → String.rev_app s acc ≠ EmptyString.
Proof.
  revert acc. induction s as [|c s IH]; intros acc Hacc; simpl; [done|]. by apply IH.
Qed.

Lemma rev_empty (s : string) : String.rev s = EmptyString → s = EmptyString.
Proof.
  destruct s as [|c s]; [done|]. unfold String.rev. simpl. intros Hrev.
  by apply rev_app_nonempty in Hrev.
Qed.

Lemma match_slash {A} (c : ascii) (x y : A) :
  match c with "/"%char => x | _ => y end = if Ascii.eqb c "/" then x else y.
Proof. by destruct c as [[] [] [] [] [] [] [] []]. Qed.

Lemma starts_with_slash_cons (c : ascii) (s : string) :
  starts_with_slash (String c s) = Ascii.eqb c "/".
Proof. unfold starts_with_slash. rewrite match_slash. by destruct (Ascii.eqb c "/"). Qed.

Lemma path_join_cases (a b : string) :
  path_join a b =
  if starts_with_slash b then b
  else match String.rev a with
       | EmptyString => b
       | String c _ => if Ascii.eqb c "/" then a +:+ b else a +:+ "/" +:+ b
       end.
Proof.
  unfold path_join.
  assert (match String.rev a with
          | EmptyString => b
          | String "/" _ => a +:+ b
          | String _ _ => a +:+ "/" +:+ b
          end =
          match String.rev a with
          | EmptyString => b
          | String c _ => if Ascii.eqb c "/" then a +:+ b else a +:+ "/" +:+ b
          end) as ->.
  { destruct (String.rev a) as [|c r]; [done|]. apply match_slash. }
  destruct b as [|c b]; [done|]. rewrite starts_with_slash_cons. apply match_slash.
Qed.

Lemma path_join_relative (a b : string) :
  starts_with_slash b = false → path_join a b = a +:+ separator a +:+ b.
Proof.
  intros Hb. rewrite path_join_cases, Hb. unfold separator.
  destruct (String.rev a) as [|c r] eqn:Hrev.
  - by apply rev_empty in Hrev as ->.
  - by destruct (Ascii.eqb c "/").
Qed.

Lemma path_join_absolute (a b : string) : starts_with_slash b = true → path_join a b = b.
Proof. intros Hb. by rewrite path_join_cases, Hb. Qed.

Lemma audio_filename_slash (py_hash : string → Z) (company_name summary_text : string) :
  starts_with_slash (audio_filename py_hash company_name summary_text)
  = starts_with_slash company_name.
Proof.
  unfold audio_filename. destruct company_name as [|c company_name]; [done|].
  unfold replace_space. cbn [smap]. rewrite app_cons, !starts_with_slash_cons.
  destruct (Ascii.eqb_spec c " ") as [->|Hne]; [done|done].
Qed.

Lemma smap_app (f : ascii → ascii) (s t : string) :
  smap f (s +:+ t) = smap f s +:+ smap f t.
Proof. induction s as [|c s IH]; [done|]. rewrite app_cons. cbn [smap]. by rewrite IH, app_cons. Qed.

Lemma replace_space_id (s : string) : no_space s = true → replace_space s = s.
Proof.
  unfold no_space, replace_space. induction s as [|c s IH]; [done|]. cbn [smap sall].
  intros [Hc Hs]%andb_true_iff. rewrite (IH Hs).
  by destruct (Ascii.eqb c " ").
Qed.

(** X9. The path the audio file is written to is a plain concatenation.
    When the company name does not begin with a slash it is the media root,
    the separator, and the file name: the company name with its spaces
    replaced, an underscore, the hash and [.mp3]. When the company name
    begins with a slash the path is the file name alone, an absolute path
    without the media root. In both cases a beginning of the company name
    that holds no space, directories and [..] included, is kept as it is at
    the head of the file name. *)
Theorem audio_path_concatenation (MEDIA_ROOT : string) (py_hash : string → Z)
    (company_name summary_text : string) :
  let filename := audio_filename py_hash company_name summary_text in
  let file_path := path_join MEDIA_ROOT filename in
  (starts_with_slash company_name = false →
   file_path = MEDIA_ROOT +:+ separator MEDIA_ROOT +:+ replace_space company_name
               +:+ "_" +:+ pretty (py_hash summary_text) +:+ ".mp3") ∧
  (starts_with_slash company_name = true →
   file_path = replace_space company_name +:+ "_" +:+ pretty (py_hash summary_text) +:+ ".mp3"
   ∧ starts_with_slash file_path = true) ∧
  (∀ dirs name, company_name = dirs +:+ name → no_space dirs = true →
     filename = dirs +:+ audio_filename py_hash name summary_text).
Proof.
  intros filename file_path. split; [|split].
  - intros Hslash. subst file_path. rewrite path_join_relative; [done|].
    subst filename. by rewrite audio_filename_slash.
  - intros Hslash.
    assert (starts_with_slash filename = true) as Hname
      by (subst filename; by rewrite audio_filename_slash).
    subst file_path. by rewrite path_join_absolute.
  - intros dirs name -> Hdirs. subst filename. unfold audio_filename, replace_space.
    rewrite smap_app. fold (replace_space dirs) (replace_space name).
    by rewrite (replace_space_id dirs Hdirs), app_assoc_s.
Qed.

(** ** The [tts] view *)

Lemma nonempty_audio_filename (py_hash : string → Z) (company_name summary_text : string) :
  nonempty (audio_filename py_hash company_name summary_text) = true.
Proof. unfold audio_filename. by destruct (replace_space company_name). Qed.

Lemma generate_tts_name_nonempty (MEDIA_ROOT : string) (makedirs : string → bool)
    (translate : string → option string) (gtts_save : string → string → bool)
    (path_exists : string → bool) (py_hash : string → Z) (py_repr : pyval → string)
    (company_name : string) (analysis_data : pyval) (evs : list event) (filename : string) :
  generate_tts MEDIA_ROOT makedirs translate gtts_save path_exists py_hash py_repr
               company_name analysis_data = (evs, Some filename) →
  nonempty filename = true.
Proof.
  pose proof (generate_tts_cases MEDIA_ROOT makedirs translate gtts_save path_exists
                py_hash py_repr company_name analysis_data) as Hcases.
  cbv zeta in Hcases.
  destruct Hcases as [[_ ->]|[_ [[_ ->]|[_ [(e & _ & ->)|(script & _ & Hrest)]]]]];
    try done.
  destruct Hrest as [[_ ->]|(translated & _ & [[_ ->]|[(_ & _ & ->)|(_ & _ & ->)]])];
    try done.
  intros [= _ <-]. apply nonempty_audio_filename.
Qed.

(** X10. The [tts] view answers 200 with an audio file exactly when the
    stripped company name is not empty, the payload is truthy and
    [generate_tts], called with the stripped name, returns that file; it
    answers 400 exactly when the stripped name is empty or the payload is
    falsy, and then nothing has been logged, created or spoken. *)
Theorem tts_status (MEDIA_ROOT : string) (makedirs : string → bool)
    (translate : string → option string) (gtts_save : string → string → bool)
    (path_exists : string → bool) (py_hash : string → Z) (py_repr : pyval → string)
    (company_name_field : string) (analysis_data : pyval) (evs : list event) :
  let view := tts MEDIA_ROOT makedirs translate gtts_save path_exists py_hash py_repr
                  company_name_field analysis_data in
  (∀ filename,
     view = (evs, Response200 filename) ↔
     nonempty (strip company_name_field) = true ∧ truthy analysis_data = true ∧
     generate_tts MEDIA_ROOT makedirs translate gtts_save path_exists py_hash py_repr
                  (strip company_name_field) analysis_data = (evs, Some filename)) ∧
  ((∃ error, view = (evs, Response400 error)) ↔
   (nonempty (strip company_name_field) = false ∨ truthy analysis_data = false) ∧ evs = []).
Proof.
  intros view. subst view. unfold tts.
  destruct (nonempty (strip company_name_field)) eqn:Hname; cbn [negb].
  2: { split.
       - intros filename. split; [done|by intros (? & _)].
       - split; [intros [error [= <- _]]; by split; [left|]|].
         intros [_ ->]. by eexists. }
  destruct (truthy analysis_data) eqn:Htruthy; cbn [negb].
  2: { split.
       - intros filename. split; [done|by intros (_ & ? & _)].
       - split; [intros [error [= <- _]]; by split; [right|]|].
         intros [_ ->]. by eexists. }
  destruct (generate_tts _ _ _ _ _ _ _ _ _) as [evs' [f|]] eqn:Hrun.
  - rewrite (generate_tts_name_nonempty _ _ _ _ _ _ _ _ _ _ _ Hrun). split.
    + intros filename. split.
      * by intros [= -> ->].
      * by intros (_ & _ & [= -> ->]).
    + split; [by intros [error ?]|]. by intros [[?|?] _].
  - split.
    + intros filename. split; [done|by intros (_ & _ & ?)].
    + split; [by intros [error ?]|]. by intros [[?|?] _].
Qed.

(** ** From the analyzer to the narration *)

Lemma distribution_json_tally (counts : gmap string Z) (p n z : Z) :
  tally counts p n z →
  distribution_json counts = [("Positive", PInt p); ("Negative", PInt n); ("Neutral", PInt z)].
Proof.
  intros (Hp & Hn & Hz & _). unfold distribution_json. cbn [omap list_omap].
  by rewrite Hp, Hn, Hz.
Qed.

(** X11. Handing the report of [analyze_articles] to the narration gives
    the company line with the verdict, the counts of the distribution, the
    topics line for the common topics and an insights line that is always
    there: it numbers the coverage differences, which begin with the two
    count sentences. *)
Theorem report_narration (py_repr : pyval → string) (company_name : string)
    (articles : list pyval) :
  articles ≠ [] →
  Forall (λ a, processable a = true) articles →
  ∃ r rest,
    analyze_articles articles = AnalysisReport r ∧
    coverage_differences r =
      (pretty (label_count "Positive" articles) +:+ " articles highlight positive developments")
      :: (pretty (label_count "Negative" articles) +:+ " articles discuss challenges/risks")
      :: rest ∧
    build_summary_text py_repr company_name (analysis_json (analyze_articles articles)) =
      Ok (company_line company_name (final_sentiment_analysis r)
          +:+ counts_line (label_count "Positive" articles) (label_count "Negative" articles)
                          (other_count articles)
          +:+ topics_line (common_topics r)
          +:+ "Key insights are: " +:+ join " " (numbered (coverage_differences r)) +:+ ". ").
Proof.
  intros Hne Hall.
  destruct (analyze_articles_processable articles Hne Hall) as (counts & Htally & ->).
  eexists _, _. split; [reflexivity|]. cbn [coverage_differences]. split; [reflexivity|].
  cbn [analysis_json]. unfold report_json.
  cbn [sentiment_distribution common_topics coverage_differences final_sentiment_analysis].
  rewrite (distribution_json_tally _ _ _ _ Htally).
  match goal with |- build_summary_text _ _ (PDict ?d) = _ =>
    rewrite (build_summary_text_fields py_repr company_name d
               (AnalysisFields (Some _) (Some _) (Some _) (Some _) (Some _) (Some _) (Some _)))
      by (by repeat split)
  end.
  reflexivity.
Qed.

(** X12. The error dict of a failed analysis is not rejected by the
    narration: it passes the payload test of [generate_tts], and the script
    built from it is that of an empty report, with the placeholder verdict,
    three zero counts and neither topics nor insights. *)
Theorem failed_analysis_narration (py_repr : pyval → string) (company_name : string)
    (articles : list pyval) (error : string) :
  analyze_articles articles = AnalysisError error →
  let payload := analysis_json (analyze_articles articles) in
  truthy payload = true ∧ isinstance_dict payload = true ∧
  build_summary_text py_repr company_name payload =
    Ok ("Company: " +:+ company_name +:+
        ". Overall Sentiment: No sentiment analysis available. " +:+
        "Positive articles: 0, Negative articles: 0, Neutral articles: 0. ").
Proof.
  intros ->. cbn [analysis_json]. split; [done|]. split; [done|].
  rewrite (build_summary_text_fields py_repr company_name _
             (AnalysisFields None None None None None None None)) by (by repeat split).
  unfold script_of, script_spec, company_line. cbn [default f_verdict f_topics f_insights].
  unfold topics_line, insights_line. by rewrite !app_assoc_s.
Qed.

(** ** The [get_news] view *)

Lemma result_map_ok {A B} (f : A → result B) (l : list A) (ys : list B) :
  result_map f l = Ok ys → Forall2 (λ x y, f x = Ok y) l ys.
Proof.
  revert ys. induction l as [|x l IH]; intros ys; cbn [result_map].
  - intros [= <-]. constructor.
  - destruct (f x) as [y|e] eqn:Hx; cbn [mbind result_bind]; [|done].
    destruct (result_map f l) as [ys'|e]; cbn [mbind result_bind]; [|done].
    intros [= <-]. constructor; [done|by apply IH].
Qed.

Lemma result_map_raises {A B} (f : A → result B) (l : list A) :
  Exists (λ x, ∃ e, f x = Raise e) l → ∃ e, result_map f l = Raise e.
Proof.
  induction 1 as [x l [e Hx]|x l _ [e IH]]; cbn [result_map].
  - rewrite Hx. by exists e.
  - destruct (f x) as [y|e']; cbn [mbind result_bind]; [|by exists e'].
    rewrite IH. by exists e.
Qed.

Section NewsViewFacts.

Variable sentiment_pipeline : string → option string.
Variable summarizer : string → Z → Z → option string.
Variable fetch : string → fetched.

#[local] Abbreviation get_news := (get_news sentiment_pipeline summarizer fetch).
#[local] Abbreviation py_process_article :=
  (py_process_article sentiment_pipeline summarizer).

Lemma analyze_sentiment_label (text : string) :
  analyze_sentiment sentiment_pipeline text ∈ three_labels.
Proof.
  unfold analyze_sentiment, three_labels.
  destruct (negb _); [set_solver|].
  destruct (sentiment_pipeline _) as [label|]; [|set_solver].
  destruct (String.eqb label "POSITIVE"); set_solver.
Qed.

(** What [process_article] makes of the dict built for a fetched item. *)
Lemma process_built_article (item : pyval) (built done : list (string * pyval)) :
  build_article item = Ok built →
  py_process_article built = Ok done →
  enriched_from item (PDict done) ∧
  ∃ description text,
    py_get item "description" PNone = Ok description ∧
    or_empty description = PStr text ∧
    done = [("title", default (PStr EmptyString) (dict_lookup done "title"));
            ("summary", PStr (summarize summarizer text));
            ("link", default (PStr EmptyString) (dict_lookup done "link"));
            ("source", default (PStr EmptyString) (dict_lookup done "source"));
            ("sentiment", PStr (analyze_sentiment sentiment_pipeline text))].
Proof.
  unfold build_article.
  destruct (py_get item "description" PNone) as [description|] eqn:Hd;
    cbn [mbind result_bind]; [|done].
  destruct (py_get item "title" _) as [title|] eqn:Ht; cbn [mbind result_bind]; [|done].
  destruct (py_get item "url" _) as [link|] eqn:Hl; cbn [mbind result_bind]; [|done].
  destruct (py_get item "source" _) as [src|] eqn:Hs; cbn [mbind result_bind]; [|done].
  destruct (py_get src "name" _) as [name|] eqn:Hn; cbn [mbind result_bind]; [|done].
  intros [= <-]. unfold py_process_article, dict_item. simpl.
  destruct (or_empty description) as [| | |text| |] eqn:Hsum; simpl; try done.
  intros [= <-]. split.
  - exists title, (summarize summarizer text), link, name,
      (analyze_sentiment sentiment_pipeline text).
    repeat split; try done; [by exists src|apply analyze_sentiment_label].
  - by exists description, text.
Qed.

(** A run of [get_news] that answers 200. *)
Lemma get_news_success (company_name_field company : string) (articles : list pyval)
    (count : Z) :
  get_news company_name_field = News200 company articles count →
  company = strip company_name_field ∧ nonempty company = true ∧
  count = Z.of_nat (length articles) ∧
  ∃ news_data items,
    fetch company = FetchJson news_data ∧
    py_get news_data "status" PNone = Ok (PStr "ok") ∧
    py_get news_data "articles" PNone = Ok (PList items) ∧
    items ≠ [] ∧
    Forall2 enriched_from items articles.
Proof.
  unfold get_news.
  destruct (nonempty (strip company_name_field)) eqn:Hname; cbn [negb]; [|done].
  destruct (fetch _) as [|e|news_data] eqn:Hfetch; try done.
  destruct news_data as [| | | | |d]; try done. cbn [py_get mbind result_bind].
  destruct (py_eq_str (dict_get d "status" PNone) "ok") eqn:Hstatus; cbn [negb orb]; [|done].
  destruct (truthy (dict_get d "articles" PNone)) eqn:Hlisted; cbn [negb]; [|done].
  assert (dict_get d "articles" (PList []) = dict_get d "articles" PNone) as ->.
  { unfold dict_get in *. by destruct (dict_lookup d "articles"). }
  destruct (py_iter (dict_get d "articles" PNone)) as [items|e] eqn:Hiter;
    cbn [mbind result_bind]; [|done].
  destruct (result_map build_article items) as [built|e] eqn:Hbuilt;
    cbn [mbind result_bind]; [|done].
  destruct (result_map py_process_article built) as [processed|e] eqn:Hproc;
    cbn [mbind result_bind try_except]; [|done].
  intros [= <- <- <-]. split; [done|]. split; [done|].
  split; [by rewrite length_fmap|].
  apply result_map_ok in Hbuilt, Hproc.
  assert (Forall2 enriched_from items (PDict <$> processed)) as Hshape.
  { clear -Hbuilt Hproc. revert processed Hproc.
    induction Hbuilt as [|item b items built Hb _ IH]; intros processed Hproc.
    - apply Forall2_nil_inv_l in Hproc as ->. constructor.
    - apply Forall2_cons_inv_l in Hproc as (dn & processed' & Hdn & Hrest & ->).
      rewrite fmap_cons. constructor; [|by apply IH].
      by destruct (process_built_article item b dn Hb Hdn). }
  exists (PDict d), items. split; [done|]. cbn [py_get].
  assert (dict_get d "status" PNone = PStr "ok") as ->.
  { destruct (dict_get d "status" PNone) as [| | |s| |]; try done.
    simpl in Hstatus. by apply String.eqb_eq in Hstatus as ->. }
  split; [done|].
  destruct (dict_get d "articles" PNone) as [|b|z|s|l|d'] eqn:Hfeed; try done.
  - (* a str: its characters are no dicts *)
    exfalso. simpl in Hiter. injection Hiter as <-.
    destruct s as [|c s]; [done|]. simpl in Hbuilt. by apply Forall2_cons_inv_l in Hbuilt
      as (? & ? & ? & _).
  - simpl in Hiter. injection Hiter as <-. split; [done|]. split; [|done].
    intros ->. done.
  - (* a dict: its keys are no dicts *)
    exfalso. simpl in Hiter. injection Hiter as <-.
    destruct d' as [|[k v] d']; [done|]. simpl in Hbuilt. by apply Forall2_cons_inv_l in Hbuilt
      as (? & ? & ? & _).
Qed.

End NewsViewFacts.

(** X13. When [get_news] answers 200, the company is the stripped request
    field, the count is the number of articles, the feed was a non-empty
    list, and the articles are those of the feed in the same order: each a
    dict with exactly the keys title, summary, link, source and sentiment,
    its title, link and source name those of the feed item, its summary a
    str, and its sentiment one of Positive, Negative and Neutral. *)
Theorem get_news_articles (sentiment_pipeline : string → option string)
    (summarizer : string → Z → Z → option string) (fetch : string → fetched)
    (company_name_field company : string) (articles : list pyval) (count : Z) :
  get_news sentiment_pipeline summarizer fetch company_name_field
    = News200 company articles count →
  company = strip company_name_field ∧
  count = Z.of_nat (length articles) ∧
  ∃ news_data items,
    fetch company = FetchJson news_data ∧
    py_get news_data "articles" PNone = Ok (PList items) ∧
    items ≠ [] ∧
    Forall2 enriched_from items articles.
Proof.
  intros (Hc & _ & Hn & news_data & items & Hf & _ & Hfeed & Hne & Hshape)%get_news_success.
  split; [done|]. split; [done|]. by exists news_data, items.
Qed.

Lemma enriched_from_label (item article : pyval) :
  enriched_from item article →
  sentiment_of article ∈ three_labels ∧
  processable article = field_is_str "title" article.
Proof.
  intros (title & summary & link & source & label & -> & _ & _ & _ & Hlabel).
  split; [done|]. by destruct title.
Qed.

Lemma unrecognized_count_zero (articles : list pyval) :
  Forall (λ a, sentiment_of a ∈ three_labels) articles → unrecognized_count articles = 0.
Proof.
  induction 1 as [|a articles Ha _ IH]; [done|].
  rewrite unrecognized_count_cons, IH. by rewrite decide_False by (by intros ?).
Qed.

(** X14. The articles of a 200 answer of [get_news], handed to
    [analyze_articles] as they are, are analyzed without error exactly when
    every title is a str; the three counts then sum to the count of the
    answer, and the Neutral count is the number of articles labelled
    Neutral, since no label is outside the three. A title that is not a str
    (a null title of the feed) makes the whole analysis fail. *)
Theorem get_news_then_analyze (sentiment_pipeline : string → option string)
    (summarizer : string → Z → Z → option string) (fetch : string → fetched)
    (company_name_field company : string) (articles : list pyval) (count : Z) :
  get_news sentiment_pipeline summarizer fetch company_name_field
    = News200 company articles count →
  (Forall (λ a, field_is_str "title" a = true) articles →
   ∃ r p n z,
     analyze_articles articles = AnalysisReport r ∧
     sentiment_distribution r !! "Positive" = Some p ∧
     sentiment_distribution r !! "Negative" = Some n ∧
     sentiment_distribution r !! "Neutral" = Some z ∧
     p + n + z = count ∧
     z = label_count "Neutral" articles) ∧
  (¬ Forall (λ a, field_is_str "title" a = true) articles →
   analyze_articles articles = AnalysisError "Analysis failed").
Proof.
  intros (_ & _ & -> & news_data & items & _ & _ & _ & Hne & Hshape)%get_news_success.
  assert (articles ≠ []) as Hne'.
  { intros ->. by apply Forall2_nil_inv_r in Hshape. }
  assert (Forall (λ a, sentiment_of a ∈ three_labels ∧
                       processable a = field_is_str "title" a) articles) as Hlab.
  { apply Forall_forall. intros a Ha.
    apply list_elem_of_lookup in Ha as [i Hi].
    destruct (Forall2_lookup_r _ _ _ _ _ Hshape Hi) as (item & _ & Hfrom).
    by apply (enriched_from_label item a). }
  split.
  - intros Htitles.
    assert (Forall (λ a, processable a = true) articles) as Hall.
    { rewrite Forall_forall in *. intros a Ha. destruct (Hlab a Ha) as [_ ->]. by apply Htitles. }
    destruct (analyze_articles_processable articles Hne' Hall)
      as (counts & (Hp & Hn & Hz & _) & ->).
    eexists _, _, _, _. split; [reflexivity|]. cbn [sentiment_distribution].
    split; [exact Hp|]. split; [exact Hn|]. split; [exact Hz|].
    split; [apply counts_partition|].
    rewrite other_count_split, unrecognized_count_zero; [lia|].
    eapply Forall_impl; [exact Hlab|]. by intros a [? _].
  - intros Hnot. apply analyze_articles_failed; [done|].
    apply not_Forall_Exists in Hnot; [|intros a; apply _].
    apply Exists_exists in Hnot as (a & Ha & Hbad). apply Exists_exists. exists a.
    split; [done|]. rewrite Forall_forall in Hlab. destruct (Hlab a Ha) as [_ ->].
    simpl in Hbad. by destruct (field_is_str "title" a).
Qed.

Lemma build_article_summary (item : pyval) (built : list (string * pyval))
    (description : pyval) :
  py_get item "description" PNone = Ok description →
  build_article item = Ok built →
  dict_lookup built "summary" = Some (or_empty description).
Proof.
  intros Hd. unfold build_article. rewrite Hd. cbn [mbind result_bind].
  destruct (py_get item "title" _); cbn [mbind result_bind]; [|done].
  destruct (py_get item "url" _); cbn [mbind result_bind]; [|done].
  destruct (py_get item "source" _) as [src|]; cbn [mbind result_bind]; [|done].
  destruct (py_get src "name" _); cbn [mbind result_bind]; [|done].
  by intros [= <-].
Qed.

(** X15. One fetched article whose description is truthy but not a str (a
    number, a list, an object, true) fails the whole request: [summarize]
    raises in its own handler, and [get_news] answers 500 although the feed
    was delivered with status ok. *)
Theorem get_news_bad_description (sentiment_pipeline : string → option string)
    (summarizer : string → Z → Z → option string) (fetch : string → fetched)
    (company_name_field : string) (news_data : pyval) (items : list pyval) :
  nonempty (strip company_name_field) = true →
  fetch (strip company_name_field) = FetchJson news_data →
  py_get news_data "status" PNone = Ok (PStr "ok") →
  py_get news_data "articles" PNone = Ok (PList items) →
  Exists bad_description items →
  ∃ e, get_news sentiment_pipeline summarizer fetch company_name_field = News500 e.
Proof.
  intros Hname Hfetch Hstatus Hfeed Hbad. unfold get_news. rewrite Hname, Hfetch. cbn [negb].
  destruct news_data as [| | | | |d]; try done. cbn [py_get mbind result_bind] in *.
  injection Hstatus as Hstatus. injection Hfeed as Hfeed.
  assert (dict_get d "articles" (PList []) = PList items) as ->.
  { unfold dict_get in *. by destruct (dict_lookup d "articles"). }
  rewrite Hstatus, Hfeed. cbn [py_eq_str negb orb truthy].
  destruct items as [|item0 items']; [by apply Exists_nil in Hbad|].
  set (items := item0 :: items') in *. cbn [negb py_iter mbind result_bind].
  destruct (result_map build_article items) as [built|e] eqn:Hbuilt;
    cbn [mbind result_bind try_except]; [|by exists e].
  apply result_map_ok in Hbuilt.
  destruct (result_map_raises (py_process_article sentiment_pipeline summarizer) built)
    as [e ->]; [|by exists e].
  apply Exists_exists in Hbad as (item & Hin & description & Hd & Htruthy & Hnostr).
  apply list_elem_of_lookup in Hin as [i Hi].
  destruct (Forall2_lookup_l _ _ _ _ _ Hbuilt Hi) as (b & Hb & Hbuild).
  apply Exists_exists. exists b. split; [by eapply list_elem_of_lookup_2|].
  pose proof (build_article_summary item b description Hd Hbuild) as Hsum.
  unfold or_empty in Hsum. rewrite Htruthy in Hsum.
  assert (∀ (dct : list (string * pyval)) v,
            dict_lookup dct "summary" = Some description →
            dict_lookup (dict_store dct "sentiment" v) "summary" = Some description) as Hkeep.
  { intros dct v. induction dct as [|[k w] dct IH]; [done|]. simpl.
    destruct (String.eqb k "summary") eqn:Hk.
    - apply String.eqb_eq in Hk as ->. simpl. by intros [= ->].
    - intros Hl. destruct (String.eqb k "sentiment"); simpl; rewrite Hk; [done|by apply IH]. }
  unfold py_process_article, dict_item. rewrite Hsum. cbn [mbind result_bind].
  rewrite (Hkeep b _ Hsum). cbn [mbind result_bind].
  destruct description as [| | |text| |]; cbn [py_summarize mbind result_bind]; eauto.
  by destruct (Hnostr text).
Qed.

(** ** The [analyze] view *)

(** X16. [analyze] answers 200 for every non-empty list of articles, also
    when the analysis fails: the articles are echoed unchanged, and the
    comparative part is the report, or the dict with the single key
    [error] exactly when some article is not processable. It answers 400
    exactly for a falsy [articles] field. *)
Theorem analyze_status (articles : list pyval) :
  articles ≠ [] →
  ∃ comparative,
    analyze (PList articles) = Analyze200 (PList articles) comparative ∧
    comparative = analysis_json (analyze_articles articles) ∧
    (comparative = PDict [("error", PStr "Analysis failed")]
     ↔ Exists (λ a, processable a = false) articles) ∧
    (∀ field, (∃ error, analyze field = Analyze400 error) ↔ truthy field = false).
Proof.
  intros Hne. eexists. split; [by destruct articles|]. split; [reflexivity|]. split.
  - destruct (decide (Forall (λ a, processable a = true) articles)) as [Hall|Hnot].
    + destruct (analyze_articles_processable articles Hne Hall) as (counts & _ & ->).
      split; [done|]. intros Hex. apply Exists_exists in Hex as (a & Hin & Ha).
      rewrite Forall_forall in Hall. specialize (Hall a Hin). congruence.
    + assert (Exists (λ a, processable a = false) articles) as Hex.
      { apply not_Forall_Exists in Hnot; [|intros a; apply _].
        eapply Exists_impl; [exact Hnot|]. intros a Ha. simpl in Ha.
        by destruct (processable a). }
      by rewrite (analyze_articles_failed articles Hne Hex).
  - intros field. unfold analyze. destruct (truthy field) eqn:Htruthy; cbn [negb].
    + split; [|done]. intros [error Herr]. by destruct field.
    + split; [done|]. intros _. by eexists.
Qed.

(** ** The sentiment adapter *)

Lemma prefix_length (n : nat) (s : string) : (String.length (prefix n s) ≤ n)%nat.
Proof. unfold prefix. rewrite substring_length. lia. Qed.

(** X17. [analyze_sentiment] answers Neutral for a text that is empty or
    all white space, whatever the classifier would say; otherwise the
    classifier sees at most the first 512 characters, so two texts that
    agree on them get the same label, and the label is Positive exactly
    when the classifier answers the label POSITIVE, Negative for any other
    answer and Neutral when the classifier fails. *)
Theorem analyze_sentiment_cases (sentiment_pipeline : string → option string)
    (text : string) :
  (strip text = EmptyString → analyze_sentiment sentiment_pipeline text = "Neutral") ∧
  (strip text ≠ EmptyString →
   (String.length (prefix 512 text) ≤ 512)%nat ∧
   (∀ text', strip text' ≠ EmptyString → prefix 512 text' = prefix 512 text →
             analyze_sentiment sentiment_pipeline text'
             = analyze_sentiment sentiment_pipeline text) ∧
   (analyze_sentiment sentiment_pipeline text = "Positive"
    ↔ sentiment_pipeline (prefix 512 text) = Some "POSITIVE") ∧
   (analyze_sentiment sentiment_pipeline text = "Neutral"
    ↔ sentiment_pipeline (prefix 512 text) = None)).
Proof.
  assert (∀ t, strip t ≠ EmptyString →
               analyze_sentiment sentiment_pipeline t =
               match sentiment_pipeline (prefix 512 t) with
               | Some label => if String.eqb label "POSITIVE" then "Positive" else "Negative"
               | None => "Neutral"
               end) as Hnonblank.
  { intros t Ht. unfold analyze_sentiment. by destruct (strip t). }
  split.
  - intros Hblank. unfold analyze_sentiment. by rewrite Hblank.
  - intros Htext. split; [apply prefix_length|]. split.
    + intros text' Htext' Hprefix. by rewrite !Hnonblank, Hprefix.
    + rewrite Hnonblank by done.
      destruct (sentiment_pipeline (prefix 512 text)) as [label|]; [|by split].
      destruct (String.eqb_spec label "POSITIVE") as [->|Hne]; [by split|].
      split; (split; [done|]); intros [= ?]; done.
Qed.

(** ** The characters of the audio file name *)

Lemma sall_app (p : ascii → bool) (s t : string) :
  sall p (s +:+ t) = sall p s && sall p t.
Proof.
  induction s as [|c s IH]; [done|]. rewrite app_cons. simpl. by rewrite IH, andb_assoc.
Qed.

Lemma no_space_replace (s : string) : no_space (replace_space s) = true.
Proof.
  unfold no_space, replace_space. induction s as [|c s IH]; [done|]. cbn [smap sall].
  rewrite IH, andb_true_r. destruct (Ascii.eqb c " ") eqn:Hc; [done|by rewrite Hc].
Qed.

Lemma no_space_pretty_N_go (x : N) (s : string) :
  no_space s = true → no_space (pretty_N_go x s) = true.
Proof.
  revert s. induction (N.lt_wf_0 x) as [x _ IH]; intros s Hs.
  assert (x = 0 ∨ 0 < x)%N as [->|?] by lia; [by rewrite pretty_N_go_0|].
  rewrite pretty_N_go_step by done. apply IH; [by apply N.div_lt|].
  unfold no_space in *. cbn [sall]. rewrite Hs, andb_true_r.
  unfold pretty_N_char. by repeat case_match.
Qed.

Lemma no_space_pretty (z : Z) : no_space (pretty z) = true.
Proof.
  assert (∀ n : N, no_space (pretty n) = true) as HN.
  { intros n. unfold pretty, pretty_N. case_decide; [done|].
    by apply no_space_pretty_N_go. }
  destruct z as [|p|p]; [done|apply HN|].
  unfold pretty, pretty_Z, no_space. rewrite sall_app. apply andb_true_iff.
  split; [done|apply HN].
Qed.

(** X18. A file name returned by [generate_tts] holds no space character,
    whatever the company name, and ends in the extension mp3. *)
Theorem returned_filename_shape (MEDIA_ROOT : string) (makedirs : string → bool)
    (translate : string → option string) (gtts_save : string → string → bool)
    (path_exists : string → bool) (py_hash : string → Z) (py_repr : pyval → string)
    (company_name : string) (analysis_data : pyval) (filename : string) :
  (generate_tts MEDIA_ROOT makedirs translate gtts_save path_exists py_hash py_repr
                company_name analysis_data).2 = Some filename →
  no_space filename = true ∧ ∃ stem, filename = stem +:+ ".mp3".
Proof.
  pose proof (generate_tts_cases MEDIA_ROOT makedirs translate gtts_save path_exists
                py_hash py_repr company_name analysis_data) as Hcases.
  cbv zeta in Hcases.
  destruct Hcases as [[_ ->]|[_ [[_ ->]|[_ [(e & _ & ->)|(script & _ & Hrest)]]]]];
    try done.
  destruct Hrest as [[_ ->]|(translated & _ & [[_ ->]|[(_ & _ & ->)|(_ & _ & ->)]])];
    try done.
  intros [= <-]. unfold audio_filename. split.
  - unfold no_space. rewrite !sall_app. fold (no_space (replace_space company_name)).
    fold (no_space (pretty (py_hash script))).
    by rewrite no_space_replace, no_space_pretty.
  - exists (replace_space company_name +:+ "_" +:+ pretty (py_hash script)).
    by rewrite !app_assoc_s.
Qed.

(** * Instances of the further properties *)

Lemma neutral_absorbs_other_values_witness :
  ∃ r p n z,
    analyze_articles loose_articles = AnalysisReport r ∧
    sentiment_distribution r !! "Positive" = Some p ∧
    sentiment_distribution r !! "Negative" = Some n ∧
    sentiment_distribution r !! "Neutral" = Some z ∧
    p + n + z = 4 ∧
    z = 3.
Proof.
  apply (neutral_absorbs_other_values loose_articles);
    [discriminate|by repeat constructor].
Defined.


Lemma distribution_order_independent_witness :
  ∃ r r',
    analyze_articles sample_articles = AnalysisReport r ∧
    analyze_articles (reverse sample_articles) = AnalysisReport r' ∧
    sentiment_distribution r = sentiment_distribution r' ∧
    final_sentiment_analysis r = final_sentiment_analysis r'.
Proof.
  apply (distribution_order_independent sample_articles (reverse sample_articles));
    [discriminate|by repeat constructor|].
  symmetry. apply reverse_Permutation.
Defined.

Lemma summarize_bounds_consistent_witness :
  (min_length (word_count (words_text 700)) ≤ max_length (word_count (words_text 700))
   ↔ 40 ≤ word_count (words_text 700) ≤ 603) ∧
  summarize echo_bounds (words_text 700) = "150/175".
Proof.
  apply (summarize_bounds_consistent echo_bounds (words_text 700)). by vm_compute.
Defined.

Lemma summarize_fallback_length_witness :
  String.length (summarize failing_summarizer (words_text 31)) = 153%nat.
Proof.
  apply (summarize_fallback_length failing_summarizer (words_text 31)).
  - by vm_compute.
  - reflexivity.
Defined.

Lemma spoken_text_is_translated_script_witness :
  (∃ script,
     build_summary_text repr_stub "Acme Corp" (PDict sample_analysis) = Ok script ∧
     Translate script ∈
       (generate_tts "/srv/media" makedirs_ok translate_ok save_ok exists_ok hash_a
                     repr_stub "Acme Corp" (PDict sample_analysis)).1 ∧
     translate_ok script = Some acme_translation ∧
     "/srv/media/Acme_Corp_281.mp3" =
       path_join "/srv/media" (audio_filename hash_a "Acme Corp" script)) ∧
  length (filter (λ ev, is_speak ev = true)
            (generate_tts "/srv/media" makedirs_ok translate_ok save_ok exists_ok hash_a
                          repr_stub "Acme Corp" (PDict sample_analysis)).1) = 1%nat.
Proof.
  apply (spoken_text_is_translated_script "/srv/media" makedirs_ok translate_ok save_ok
           exists_ok hash_a repr_stub "Acme Corp" (PDict sample_analysis)
           acme_translation "/srv/media/Acme_Corp_281.mp3").
  apply (list_elem_of_lookup_2 _ 5%nat). reflexivity.
Defined.

Lemma report_narration_witness :
  ∃ r rest,
    analyze_articles sample_articles = AnalysisReport r ∧
    coverage_differences r =
      "2 articles highlight positive developments"
      :: "1 articles discuss challenges/risks" :: rest ∧
    build_summary_text repr_stub "Tesla" (analysis_json (analyze_articles sample_articles)) =
      Ok (company_line "Tesla" (final_sentiment_analysis r)
          +:+ counts_line 2 1 1
          +:+ topics_line (common_topics r)
          +:+ "Key insights are: " +:+ join " " (numbered (coverage_differences r)) +:+ ". ").
Proof.
  apply (report_narration repr_stub "Tesla" sample_articles);
    [discriminate|by repeat constructor].
Defined.

Lemma failed_analysis_narration_witness :
  truthy (analysis_json (analyze_articles [])) = true ∧
  isinstance_dict (analysis_json (analyze_articles [])) = true ∧
  build_summary_text repr_stub "Tesla" (analysis_json (analyze_articles [])) =
    Ok ("Company: Tesla. Overall Sentiment: No sentiment analysis available. " +:+
        "Positive articles: 0, Negative articles: 0, Neutral articles: 0. ").
Proof.
  apply (failed_analysis_narration repr_stub "Tesla" [] "No articles to analyze").
  reflexivity.
Defined.

Lemma get_news_articles_witness :
  "Tesla" = strip " Tesla " ∧
  2 = Z.of_nat (length good_news_articles) ∧
  ∃ news_data items,
    fetch_good "Tesla" = FetchJson news_data ∧
    py_get news_data "articles" PNone = Ok (PList items) ∧
    items ≠ [] ∧
    Forall2 enriched_from items good_news_articles.
Proof.
  apply (get_news_articles label_positive echo_bounds fetch_good " Tesla " "Tesla"
           good_news_articles 2).
  reflexivity.
Defined.

Lemma get_news_then_analyze_witness :
  ∃ r p n z,
    analyze_articles good_news_articles = AnalysisReport r ∧
    sentiment_distribution r !! "Positive" = Some p ∧
    sentiment_distribution r !! "Negative" = Some n ∧
    sentiment_distribution r !! "Neutral" = Some z ∧
    p + n + z = 2 ∧
    z = label_count "Neutral" good_news_articles.
Proof.
  apply (get_news_then_analyze label_positive echo_bounds fetch_good " Tesla " "Tesla"
           good_news_articles 2).
  - reflexivity.
  - by repeat constructor.
Defined.

Lemma get_news_bad_description_witness :
  ∃ e, get_news label_positive echo_bounds fetch_bad " Tesla " = News500 e.
Proof.
  apply (get_news_bad_description label_positive echo_bounds fetch_bad " Tesla "
           (feed_of bad_items) bad_items); try reflexivity.
  apply Exists_cons_tl, Exists_cons_hd. exists (PInt 5). by repeat split.
Defined.

Lemma analyze_status_witness :
  ∃ comparative,
    analyze (PList [enriched_article "Positive" "Up"; PInt 3])
      = Analyze200 (PList [enriched_article "Positive" "Up"; PInt 3]) comparative ∧
    comparative = analysis_json (analyze_articles [enriched_article "Positive" "Up"; PInt 3]) ∧
    (comparative = PDict [("error", PStr "Analysis failed")]
     ↔ Exists (λ a, processable a = false) [enriched_article "Positive" "Up"; PInt 3]) ∧
    (∀ field, (∃ error, analyze field = Analyze400 error) ↔ truthy field = false).
Proof.
  apply (analyze_status [enriched_article "Positive" "Up"; PInt 3]). discriminate.
Defined.

Lemma returned_filename_shape_witness :
  no_space "Acme_Corp_281.mp3" = true ∧ ∃ stem, "Acme_Corp_281.mp3" = stem +:+ ".mp3".
Proof.
  apply (returned_filename_shape "/srv/media" makedirs_ok translate_ok save_ok exists_ok
           hash_a repr_stub "Acme Corp" (PDict sample_analysis) "Acme_Corp_281.mp3").
  reflexivity.
Defined.

(** * Further worked instances *)

Example get_news_good :
  get_news label_positive echo_bounds fetch_good " Tesla " =
  News200 "Tesla"
    [PDict [("title", PStr "Tesla shares rally"); ("summary", PStr "Profits rose sharply.");
            ("link", PStr "https://example.com/a"); ("source", PStr "Example News");
            ("sentiment", PStr "Positive")];
     PDict [("title", PStr "Tesla recall widens"); ("summary", PStr EmptyString);
            ("link", PStr "https://example.com/a"); ("source", PStr "Example News");
            ("sentiment", PStr "Neutral")]]
    2.
Proof. reflexivity. Qed.

Example get_news_bad : get_news label_positive echo_bounds fetch_bad " Tesla " = News500 TypeError.
Proof. reflexivity. Qed.

Example get_news_blank :
  get_news label_positive echo_bounds fetch_good "   " = News400 "company_name is required".
Proof. reflexivity. Qed.

Example get_news_unreachable :
  get_news label_positive echo_bounds (λ _, FetchRequestError) "Tesla"
  = News502 "Failed to fetch news from NewsAPI".
Proof. reflexivity. Qed.

Example get_news_no_articles :
  get_news label_positive echo_bounds (λ _, FetchJson (feed_of [])) "Tesla"
  = News404 "No articles found or API error".
Proof. reflexivity. Qed.

Example analyze_text_body :
  analyze (PStr "abc") = Analyze200 (PStr "abc") (PDict [("error", PStr "Analysis failed")]).
Proof. reflexivity. Qed.

Example analyze_object_body : analyze (PDict [("a", PInt 1)]) = Analyze500 TypeError.
Proof. reflexivity. Qed.

Example loose_distribution :
  match analyze_articles loose_articles with
  | AnalysisReport r =>
      sentiment_distribution r !! "Positive" = Some 1 ∧
      sentiment_distribution r !! "Neutral" = Some 3 ∧
      common_topics r = ["Results"; "Quarterly"; "Call"]
  | AnalysisError _ => False
  end.
Proof. vm_compute. by repeat split. Qed.

(** The character tables, listed. *)
Example isspace_table :
  filter (λ n, py_isspace (ascii_of_nat n) = true) (seq 0 256)
  = [9; 10; 11; 12; 13; 28; 29; 30; 31; 32; 133; 160]%nat.
Proof. by vm_compute. Qed.

Example cased_table :
  filter (λ n, is_cased (ascii_of_nat n) = true) (seq 0 256)
  = seq 65 26 ++ seq 97 26 ++ [170; 181; 186]%nat ++ seq 192 23 ++ seq 216 31 ++ seq 248 8.
Proof. by vm_compute. Qed.

Example lower_table :
  (λ n, nat_of_ascii (py_lower_char (ascii_of_nat n))) <$> seq 0 256
  = (λ n, if decide (n ∈ seq 65 26 ++ seq 192 23 ++ seq 216 7) then n + 32 else n)%nat
    <$> seq 0 256.
Proof. by vm_compute. Qed.

Example title_table :
  (λ n, py_title_char (ascii_of_nat n)) <$> seq 0 256
  = (λ n, if decide (n = 223)%nat then "Ss"
          else if decide (n ∈ seq 97 26 ++ seq 224 23 ++ seq 248 7)
               then String (ascii_of_nat (n - 32)) EmptyString
               else String (ascii_of_nat n) EmptyString)
    <$> seq 0 256.
Proof. by vm_compute. Qed.

(** The tokens [ß] and [ss] are two topics with one title-cased form. *)
Example sharp_s_topics :
  topic_tokens sharp_s_articles
    = [String e_acute "cole"; String sharp_s EmptyString; "ss"] ∧
  match analyze_articles sharp_s_articles with
  | AnalysisReport r => common_topics r = [String capital_e_acute "cole"; "Ss"; "Ss"]
  | AnalysisError _ => False
  end.
Proof. by vm_compute. Qed.

(** Directories in the company name reach the path of the audio file. *)
Example parent_directory_path :
  path_join "/srv/media" (audio_filename hash_a "../../etc/cron.d/x" "summary text")
  = "/srv/media/../../etc/cron.d/x_12.mp3".
Proof. by vm_compute. Qed.
